(** * Slider-crank piston solver: a shallow embedding of [piston.cpp]

    The program computes, once per frame, the position of a piston on a
    cylinder axis from the crank radius, the crank angle, the cylinder
    origin and direction and the connecting-rod length.  Two revisions
    of the solver are embedded:

    - [Piston]: the pure function [piston_position::calculate] of
      [piston.cpp];
    - [Stateful]: the earlier member function
      [engine::calculate_positions], which updates the [piston] member of
      the engine in place.

    Around the solver the file embeds what the two programs do with it:
    the camera [view], the [interface] flag, the drawing functions as the
    lists of raylib calls they make, and the body of the loop of [main]
    as a function of the input of one frame ([PistonApp], [StatefulApp];
    [Earliest] is the first revision, kept in the second half of
    [piston.cpp]).

    Arithmetic.  The solver is embedded twice.

    - Over the real numbers [R] ([Piston], [Stateful] and everything
      around them): [+], [-], [*], [/], [abs], [sqrt], [cos], [sin] and
      [<] are the operations of the Reals library.  This reading has no
      rounding, no overflow, no infinities and no NaN.  It carries the
      statements that follow the text of the source operation by
      operation (which coefficients, which root, which test, which
      assignment) and the numbers of the scenarios.
    - In binary32 ([F32.Piston], [F32.Stateful]): [float] is the IEEE 754
      single-precision format and every operation rounds as the machine
      does.  It carries the statements in which rounding, overflow or NaN
      decide: exact distances, the agreement of the two revisions, the
      invariance under a scaled direction and a crank of radius zero.

    Division.  The source divides twice.  The division by [divisor] is
    guarded by [is_zero].  The division inside [normalize] is by
    [sqrt (dot v v)], which is zero only for the zero vector; over [R]
    each component of the result is then a product with the factor [0]
    and so is [0] whatever the quotient is, where binary32 gives NaN.
    The statements over [R] that speak of directions assume a non-zero
    direction. *)

From Stdlib Require Import Reals Lra Psatz Bool ZArith List Lia SpecFloat.
From Equations Require Import Equations.
Import ListNotations.

Local Open Scope R_scope.

(** ** Scalars *)

(** The comparison [a < b] on [float], as a boolean. *)
Definition ltb (a b : R) : bool := if Rlt_dec a b then true else false.

(** [const float EPSILON = 0.001f;] *)
Definition EPSILON : R := 1 / 1000.

(** [bool is_zero(const float a) { return abs(a) < EPSILON; }] *)
Definition is_zero (a : R) : bool := ltb (Rabs a) EPSILON.

(** [float square(const float a) { return a * a; }] *)
Definition square (a : R) : R := a * a.

(** ** The part of GLM the solver uses *)

Module glm.

(** [glm::vec2], two [float] components. *)
Record vec2 : Type := Vec2 { x : R; y : R }.

(** [vec2 + vec2], componentwise. *)
Definition add (u v : vec2) : vec2 := Vec2 (x u + x v) (y u + y v).

(** [vec2 * float], componentwise. *)
Definition scale (v : vec2) (s : R) : vec2 := Vec2 (x v * s) (y v * s).

(** [glm::dot] on [vec2]. *)
Definition dot (u v : vec2) : R := x u * x v + y u * y v.

(** [glm::inversesqrt(s)] is [1 / sqrt(s)]. *)
Definition inversesqrt (s : R) : R := 1 / sqrt s.

(** Modelled from the spec: [glm::normalize] belongs to the GLM library
    and is not part of the repository's sources.  The specification only
    says that the direction is "normalized internally before use"; the
    definition is GLM's own, [v * inversesqrt(dot(v, v))]. *)
Definition normalize (v : vec2) : vec2 := scale v (inversesqrt (dot v v)).

(** *** The part of GLM the drawing code uses

    Modelled from the spec: the vector and matrix operations below belong
    to the GLM library and are not part of the repository's sources, which
    only call them (the specification speaks of "a pan/zoom camera
    transform").  The definitions are GLM's own: [mat3] is stored by
    columns, [m[c][r]] is row [r] of column [c]. *)

(** [vec2 - vec2], componentwise. *)
Definition sub (u v : vec2) : vec2 := Vec2 (x u - x v) (y u - y v).

(** [glm::length] on [vec2]. *)
Definition length (v : vec2) : R := sqrt (dot v v).

(** [glm::vec3]; the components are [x3], [y3], [z3] because [x] and [y]
    name those of [vec2]. *)
Record vec3 : Type := Vec3 { x3 : R; y3 : R; z3 : R }.

(** [vec3 + vec3] and [vec3 * float]. *)
Definition add3 (u v : vec3) : vec3 :=
  Vec3 (x3 u + x3 v) (y3 u + y3 v) (z3 u + z3 v).

Definition scale3 (v : vec3) (s : R) : vec3 :=
  Vec3 (x3 v * s) (y3 v * s) (z3 v * s).

(** [glm::dot] and [glm::length] on [vec3]. *)
Definition dot3 (u v : vec3) : R := x3 u * x3 v + y3 u * y3 v + z3 u * z3 v.

Definition length3 (v : vec3) : R := sqrt (dot3 v v).

(** [glm::mat3], three columns. *)
Record mat3 : Type := Mat3 { c0 : vec3; c1 : vec3; c2 : vec3 }.

(** [mat3(s)]: [s] on the diagonal. *)
Definition mat3_diagonal (s : R) : mat3 :=
  Mat3 (Vec3 s 0 0) (Vec3 0 s 0) (Vec3 0 0 s).

(** [mat3 * vec3]. *)
Definition mul (m : mat3) (v : vec3) : vec3 :=
  Vec3 (x3 (c0 m) * x3 v + x3 (c1 m) * y3 v + x3 (c2 m) * z3 v)
       (y3 (c0 m) * x3 v + y3 (c1 m) * y3 v + y3 (c2 m) * z3 v)
       (z3 (c0 m) * x3 v + z3 (c1 m) * y3 v + z3 (c2 m) * z3 v).

(** [glm::translate(m, v)] of [matrix_transform_2d]: the third column
    becomes [m[0] * v[0] + m[1] * v[1] + m[2]]. *)
Definition translate (m : mat3) (v : vec2) : mat3 :=
  Mat3 (c0 m) (c1 m)
       (add3 (add3 (scale3 (c0 m) (x v)) (scale3 (c1 m) (y v))) (c2 m)).

(** [glm::scale(m, v)] of [matrix_transform_2d]: the first two columns
    are multiplied by [v[0]] and [v[1]]. *)
Definition scale_matrix (m : mat3) (v : vec2) : mat3 :=
  Mat3 (scale3 (c0 m) (x v)) (scale3 (c1 m) (y v)) (c2 m).

(** The determinant as [glm::inverse] computes it. *)
Definition determinant (m : mat3) : R :=
  x3 (c0 m) * (y3 (c1 m) * z3 (c2 m) - y3 (c2 m) * z3 (c1 m))
  - x3 (c1 m) * (y3 (c0 m) * z3 (c2 m) - y3 (c2 m) * z3 (c0 m))
  + x3 (c2 m) * (y3 (c0 m) * z3 (c1 m) - y3 (c1 m) * z3 (c0 m)).

(** [glm::inverse] on [mat3]: the cofactors times [1 / determinant]. *)
Definition inverse (m : mat3) : mat3 :=
  let m00 := x3 (c0 m) in let m01 := y3 (c0 m) in let m02 := z3 (c0 m) in
  let m10 := x3 (c1 m) in let m11 := y3 (c1 m) in let m12 := z3 (c1 m) in
  let m20 := x3 (c2 m) in let m21 := y3 (c2 m) in let m22 := z3 (c2 m) in
  let OneOverDeterminant := 1 / determinant m in
  Mat3
    (Vec3 ((m11 * m22 - m21 * m12) * OneOverDeterminant)
          (- (m01 * m22 - m21 * m02) * OneOverDeterminant)
          ((m01 * m12 - m11 * m02) * OneOverDeterminant))
    (Vec3 (- (m10 * m22 - m20 * m12) * OneOverDeterminant)
          ((m00 * m22 - m20 * m02) * OneOverDeterminant)
          (- (m00 * m12 - m10 * m02) * OneOverDeterminant))
    (Vec3 ((m10 * m21 - m20 * m11) * OneOverDeterminant)
          (- (m00 * m21 - m20 * m01) * OneOverDeterminant)
          ((m00 * m11 - m10 * m01) * OneOverDeterminant)).

End glm.

Abbreviation vec2 := glm.vec2.
Abbreviation Vec2 := glm.Vec2.

(** Euclidean distance between two points ([glm::distance]); used only in
    statements. *)
Definition distance (p q : vec2) : R :=
  sqrt (square (glm.x p - glm.x q) + square (glm.y p - glm.y q)).

(** ** [piston.cpp]: the pure solver *)

Module Piston.

(** [struct engine::crankshaft] *)
Record crankshaft : Type := Crankshaft {
  crank_radius : R;
  angle : R
}.

(** [struct engine::cylinder] *)
Record cylinder : Type := Cylinder {
  origin : vec2;
  direction : vec2
}.

(** [struct engine]; the member [cylinder] is spelt [cylinder_] because
    the type already has that name. *)
Record engine : Type := Engine {
  crank : crankshaft;
  cylinder_ : cylinder;
  connecting_rod_length : R
}.

(** [struct piston_position] *)
Record piston_position : Type := PistonPosition {
  is_valid : bool;
  value : vec2
}.

(** [piston_position::invalid()] *)
Definition invalid : piston_position := PistonPosition false (Vec2 0 0).

(** [piston_position::valid(position)] *)
Definition valid (position : vec2) : piston_position :=
  PistonPosition true position.

(** [piston_position::calculate(engine)], statement by statement. *)
Definition calculate (engine : engine) : piston_position :=
  let cylinder_direction := glm.normalize (direction (cylinder_ engine)) in
  let dx := glm.x cylinder_direction in
  let dy := glm.y cylinder_direction in
  let lx := glm.x (origin (cylinder_ engine)) in
  let ly := glm.y (origin (cylinder_ engine)) in
  let r := crank_radius (crank engine) in
  let rcr := connecting_rod_length engine in
  let alpha := angle (crank engine) in
  let a := square dx + square dy in
  let b := 2 * (lx * dx + ly * dy - r * dx * cos alpha - r * dy * sin alpha) in
  let c := square lx + square ly - 2 * r * lx * cos alpha
           - 2 * r * ly * sin alpha - square rcr + square r in
  let discriminant := square b - 4 * a * c in
  let divisor := 2 * a in
  if is_zero divisor then invalid
  else if ltb discriminant 0 then invalid
  else
    let t := (- b + sqrt discriminant) / divisor in
    valid (glm.add (origin (cylinder_ engine)) (glm.scale cylinder_direction t)).

End Piston.

(** ** The earlier revision: the solver as a member function with state *)

Module Stateful.

(** [struct engine::crankshaft] *)
Record crankshaft : Type := Crankshaft {
  crank_radius : R;
  crankpin_position : vec2;
  angle : R
}.

(** [struct engine::cylinder] *)
Record cylinder : Type := Cylinder {
  origin : vec2;
  direction : vec2
}.

(** [struct engine::piston]; [exists] is a keyword, hence [exists_]. *)
Record piston : Type := Piston {
  position : vec2;
  exists_ : bool
}.

(** [struct engine]; members that share their type's name carry an
    underscore. *)
Record engine : Type := Engine {
  crankshaft_ : crankshaft;
  cylinder_ : cylinder;
  piston_ : piston;
  connecting_rod_length : R
}.

(** Assignments to single members of the object. *)
Definition set_crankpin_position (this : engine) (p : vec2) : engine :=
  Engine (Crankshaft (crank_radius (crankshaft_ this)) p (angle (crankshaft_ this)))
         (cylinder_ this) (piston_ this) (connecting_rod_length this).

Definition set_piston_position (this : engine) (p : vec2) : engine :=
  Engine (crankshaft_ this) (cylinder_ this)
         (Piston p (exists_ (piston_ this))) (connecting_rod_length this).

Definition set_piston_exists (this : engine) (b : bool) : engine :=
  Engine (crankshaft_ this) (cylinder_ this)
         (Piston (position (piston_ this)) b) (connecting_rod_length this).

(** The object as its member initialisers leave it. *)
Definition initial : engine :=
  Engine (Crankshaft 50 (Vec2 0 0) 0)
         (Cylinder (Vec2 0 0) (Vec2 0 20))
         (Piston (Vec2 0 0) false)
         100.

(** [void engine::calculate_positions()]: the object before the call is
    the argument, the object after it the result. *)
Definition calculate_positions (this : engine) : engine :=
  let this :=
    set_crankpin_position this
      (Vec2 (cos (angle (crankshaft_ this)) * crank_radius (crankshaft_ this))
            (sin (angle (crankshaft_ this)) * crank_radius (crankshaft_ this))) in
  let cylinder_direction := glm.normalize (direction (cylinder_ this)) in
  let dx := glm.x cylinder_direction in
  let dy := glm.y cylinder_direction in
  let lx := glm.x (origin (cylinder_ this)) in
  let ly := glm.y (origin (cylinder_ this)) in
  let r := crank_radius (crankshaft_ this) in
  let rcr := connecting_rod_length this in
  let alpha := angle (crankshaft_ this) in
  let rcos := r * cos alpha in
  let rsin := r * sin alpha in
  let a := square dx + square dy in
  let b := 2 * (lx * dx + ly * dy - dx * rcos - dy * rsin) in
  let c := square lx + square ly - 2 * lx * rcos - 2 * ly * rsin
           - square rcr + square r in
  let discriminant := square b - 4 * a * c in
  let divisor := 2 * a in
  if is_zero divisor then set_piston_exists this false
  else if ltb discriminant 0 then set_piston_exists this false
  else
    let t := (- b + sqrt discriminant) / divisor in
    let this :=
      set_piston_position this
        (glm.add (origin (cylinder_ this)) (glm.scale cylinder_direction t)) in
    set_piston_exists this true.

(** The parameter snapshot of the object: the five quantities the pure
    solver reads, as an engine of [piston.cpp]. *)
Definition snapshot (this : engine) : Piston.engine :=
  Piston.Engine
    (Piston.Crankshaft (crank_radius (crankshaft_ this)) (angle (crankshaft_ this)))
    (Piston.Cylinder (origin (cylinder_ this)) (direction (cylinder_ this)))
    (connecting_rod_length this).

End Stateful.

(** ** The quadratic of the specification

    The coefficients as the specification writes them, for an engine of
    [piston.cpp]: [r], [L], [O], [D] and [alpha] are its five parameters
    and [d = normalize(D)]. *)

Module Spec.
Section Quadratic.
Variable e : Piston.engine.

Definition r : R := Piston.crank_radius (Piston.crank e).
Definition alpha : R := Piston.angle (Piston.crank e).
Definition L : R := Piston.connecting_rod_length e.
Definition O : vec2 := Piston.origin (Piston.cylinder_ e).
Definition D : vec2 := Piston.direction (Piston.cylinder_ e).

Definition d : vec2 := glm.normalize D.

Definition a : R := glm.x d ^ 2 + glm.y d ^ 2.

Definition b : R :=
  2 * (glm.x O * glm.x d + glm.y O * glm.y d
       - r * glm.x d * cos alpha - r * glm.y d * sin alpha).

Definition c : R :=
  glm.x O ^ 2 + glm.y O ^ 2 - 2 * r * glm.x O * cos alpha
  - 2 * r * glm.y O * sin alpha - L ^ 2 + r ^ 2.

Definition discriminant : R := b ^ 2 - 4 * a * c.

(** The two branches of the quadratic formula. *)
Definition t_plus : R := (- b + sqrt discriminant) / (2 * a).
Definition t_minus : R := (- b - sqrt discriminant) / (2 * a).

(** The point of the cylinder axis at parameter [t]. *)
Definition axis (t : R) : vec2 := glm.add O (glm.scale d t).

(** The crankpin, at distance [r] from the crank centre at angle
    [alpha]. *)
Definition crankpin : vec2 := Vec2 (r * cos alpha) (r * sin alpha).

(** The solver as section 4.1 of the specification describes it. *)
Definition solve : Piston.piston_position :=
  if is_zero a then Piston.invalid
  else if ltb discriminant 0 then Piston.invalid
  else Piston.valid (axis t_plus).

End Quadratic.
End Spec.

(** ** Engines used in the statements *)

(** The engine of [piston.cpp] with crank radius [r], rod length [L],
    cylinder origin [O], cylinder direction [D] and crank angle [alpha]. *)
Definition engine_with (r L : R) (O D : vec2) (alpha : R) : Piston.engine :=
  Piston.Engine (Piston.Crankshaft r alpha) (Piston.Cylinder O D) L.

(** [r = 50], [L = 100], [O = (0,0)], [D = (0,20)], at crank angle
    [alpha]. *)
Definition scenario (alpha : R) : Piston.engine :=
  engine_with 50 100 (Vec2 0 0) (Vec2 0 20) alpha.




(** The object once [calculate_positions] has stored the crankpin. *)
Definition with_crankpin (this : Stateful.engine) : Stateful.engine :=
  Stateful.set_crankpin_position this
    (Vec2 (cos (Stateful.angle (Stateful.crankshaft_ this))
           * Stateful.crank_radius (Stateful.crankshaft_ this))
          (sin (Stateful.angle (Stateful.crankshaft_ this))
           * Stateful.crank_radius (Stateful.crankshaft_ this))).

(** ** The drawing interface

    The calls into raylib that the program makes while it draws a frame.
    A drawing function of the program is embedded as the list of the calls
    it makes, in order.

    Modelled from the spec: [Vector2], [Color] and the drawing calls are
    raylib's and not part of the repository's sources; only their
    argument lists are used here. *)

Module raylib.

(** [struct Vector2 { float x; float y; }] *)
Record Vector2 : Type := MkVector2 { x : R; y : R }.

(** [struct Color], four [unsigned char] components. *)
Record Color : Type := MkColor { r : Z; g : Z; b : Z; a : Z }.

Definition WHITE : Color := MkColor 255 255 255 255.
Definition RAYWHITE : Color := MkColor 245 245 245 255.

Inductive call : Type :=
| BeginDrawing
| ClearBackground (color : Color)
| DrawLineV (startPos endPos : Vector2) (color : Color)
| DrawCircleV (center : Vector2) (radius : R) (color : Color)
| DrawTriangle (v1 v2 v3 : Vector2) (color : Color)
| EndDrawing.

End raylib.

(** [const int WINDOW_WIDTH = 800; const int WINDOW_HEIGHT = 600;] *)
Definition WINDOW_WIDTH : Z := 800.
Definition WINDOW_HEIGHT : Z := 600.

(** ** [struct view]: the camera

    The same text in both files.  The two overloads of [transform] and of
    [inverse_transform] are told apart by the type of their argument. *)

Module view.

(** [struct view]; the member [view] is spelt [view_]. *)
Record view : Type := View { view_ : glm.mat3 }.

(** The member initialiser:
    [translate(scale(mat3(1.), vec2(1, -1)), vec2(WINDOW_WIDTH / 2, -WINDOW_HEIGHT / 2))],
    with the divisions of [int]. *)
Definition initial : view :=
  View (glm.translate
          (glm.scale_matrix (glm.mat3_diagonal 1) (Vec2 1 (- 1)))
          (Vec2 (IZR (Z.quot WINDOW_WIDTH 2)) (IZR (Z.quot (- WINDOW_HEIGHT) 2)))).

(** [void translate(const vec2& vec)] *)
Definition translate (this : view) (vec : vec2) : view :=
  View (glm.translate (view_ this) vec).

(** [void scale(const float& value)] *)
Definition scale (this : view) (value : R) : view :=
  View (glm.scale_matrix (view_ this) (Vec2 value value)).

(** [float transform(const float value) const]: from world size to
    display size. *)
Definition transform_float (this : view) (value : R) : R :=
  let v := glm.mul (view_ this) (glm.Vec3 value 0 0) in
  glm.length3 v.

(** [float inverse_transform(const float value) const]: from display
    size to world size. *)
Definition inverse_transform_float (this : view) (value : R) : R :=
  let v := glm.mul (glm.inverse (view_ this)) (glm.Vec3 value 0 0) in
  glm.length3 v.

(** [vec2 inverse_transform(const Vector2& vector) const]: from display
    coordinates to world coordinates. *)
Definition inverse_transform_Vector2 (this : view) (vector : raylib.Vector2) : vec2 :=
  let v := glm.mul (glm.inverse (view_ this))
             (glm.Vec3 (raylib.x vector) (raylib.y vector) 1) in
  Vec2 (glm.x3 v) (glm.y3 v).

(** [Vector2 transform(const vec2& vector) const]: from world coordinates
    to display coordinates. *)
Definition transform_vec2 (this : view) (vector : vec2) : raylib.Vector2 :=
  let v := glm.mul (view_ this) (glm.Vec3 (glm.x vector) (glm.y vector) 1) in
  raylib.MkVector2 (glm.x3 v) (glm.y3 v).

End view.

(** The cameras that come from the initial one: a uniform zoom [s], the
    vertical axis flipped, and an offset. *)
Definition camera_shape (v : view.view) (s tx ty : R) : Prop :=
  view.view_ v = glm.Mat3 (glm.Vec3 s 0 0) (glm.Vec3 0 (- s) 0) (glm.Vec3 tx ty 1).

(** ** What raylib reports during one frame

    The input functions the program calls.  raylib polls the devices once
    per frame, in [EndDrawing], so within a frame every call of one of
    these functions returns the same value. *)

Record input : Type := Input {
  GetFrameTime : R;
  GetMousePosition : raylib.Vector2;
  IsMouseButtonDown_LEFT : bool;
  IsMouseButtonUp_LEFT : bool;
  IsKeyDown_W : bool;
  IsKeyDown_S : bool;
  IsKeyDown_A : bool;
  IsKeyDown_D : bool;
  GetMouseWheelMove : R
}.

(** ** [struct interface]: which handle owns the mouse *)

Module interface.

(** [enum class component] *)
Inductive component : Type :=
| NONE
| CYLINDER_GUIDE_DIRECTION
| CYLINDER_GUIDE_POSITION.

(** [==] on [component]. *)
Definition component_eqb (c1 c2 : component) : bool :=
  match c1, c2 with
  | NONE, NONE => true
  | CYLINDER_GUIDE_DIRECTION, CYLINDER_GUIDE_DIRECTION => true
  | CYLINDER_GUIDE_POSITION, CYLINDER_GUIDE_POSITION => true
  | _, _ => false
  end.

(** [struct interface] *)
Record interface : Type := Interface {
  show_cylinder_guides : bool;
  active_component : component
}.

(** The object as its member initialisers leave it. *)
Definition initial : interface := Interface true NONE.

(** The assignment [active_component = c]. *)
Definition set_active_component (this : interface) (c : component) : interface :=
  Interface (show_cylinder_guides this) c.

(** [void set_active(component c)], of the stateful revision: set an
    active component only if no component is active. *)
Definition set_active (this : interface) (c : component) : interface :=
  if component_eqb (active_component this) NONE
  then set_active_component this c
  else this.

(** [bool is_active(component c)], of the stateful revision. *)
Definition is_active (this : interface) (c : component) : bool :=
  component_eqb (active_component this) c.

End interface.

(** ** Drawing functions with the same text in both files *)

(** [void draw_rectangle(view, start, end, width, color)]: two triangles. *)
Definition draw_rectangle (v : view.view) (start end_ : vec2) (width : R)
    (color : raylib.Color) : list raylib.call :=
  let direction := glm.sub end_ start in
  let normal := glm.normalize (Vec2 (- glm.y direction) (glm.x direction)) in
  [ raylib.DrawTriangle
      (view.transform_vec2 v (glm.add start (glm.scale normal (width / 2))))
      (view.transform_vec2 v (glm.sub start (glm.scale normal (width / 2))))
      (view.transform_vec2 v (glm.add end_ (glm.scale normal (width / 2))))
      color;
    raylib.DrawTriangle
      (view.transform_vec2 v (glm.sub start (glm.scale normal (width / 2))))
      (view.transform_vec2 v (glm.sub end_ (glm.scale normal (width / 2))))
      (view.transform_vec2 v (glm.add end_ (glm.scale normal (width / 2))))
      color ].

(** The termination measure of the loop below: the distance of [i] from
    [1000]. *)
Definition ticks_left (i : Z) : nat := Z.to_nat (1000 - i).

(** [for (int i = from; i < 1000; i += 10) body(i);] *)
Equations? for_ticks (i : Z) (body : Z -> list raylib.call) : list raylib.call
  by wf (ticks_left i) lt :=
  for_ticks i body with Z_lt_dec i 1000%Z => {
    | left Hlt := body i ++ for_ticks (i + 10)%Z body;
    | right _ := [] }.
Proof. unfold ticks_left. lia. Qed.

(** [void draw_coordinates(const view& view)] *)
Definition draw_coordinates (v : view.view) : list raylib.call :=
  let color := raylib.MkColor 0 0 0 25 in
  let size := view.inverse_transform_float v 1000 in
  [ raylib.DrawLineV (view.transform_vec2 v (Vec2 (- size) 0))
      (view.transform_vec2 v (Vec2 size 0)) color;
    raylib.DrawLineV (view.transform_vec2 v (Vec2 0 (- size)))
      (view.transform_vec2 v (Vec2 0 size)) color ]
  ++ for_ticks (- 1000)
       (fun i => [ raylib.DrawLineV (view.transform_vec2 v (Vec2 (IZR i) (- 5)))
                     (view.transform_vec2 v (Vec2 (IZR i) 5)) color ])
  ++ for_ticks (- 1000)
       (fun i => [ raylib.DrawLineV (view.transform_vec2 v (Vec2 (- 5) (IZR i)))
                     (view.transform_vec2 v (Vec2 5 (IZR i))) color ]).

(** ** [main]: the camera control, the same text in both files *)

(** The comparison [a != b] on [float], as a boolean. *)
Definition neqb (a b : R) : bool := if Req_dec_T a b then false else true.

(** The locals of [main] that the camera control reads and writes; the
    locals [zoom_max_speed], [zoom_dump] and [camera_dumping] are never
    assigned and appear as constants. *)
Record camera : Type := Camera {
  camera_view : view.view;
  zoom_speed : R;
  camera_speed : vec2
}.

Definition zoom_max_speed : R := 5 / 100.
Definition zoom_dump : R := 8 / 10.
Definition camera_dumping : R := 8 / 10.

(** The statements of the loop body under [=== CONTROL ===], for the
    frame factor [delta]. *)
Definition control (inp : input) (delta : R) (c : camera) : camera :=
  let view := camera_view c in
  let zoom_speed := zoom_speed c in
  let camera_speed := camera_speed c in
  let zoom_speed := zoom_speed * (zoom_dump * delta) in
  let zoom_speed := if is_zero (Rabs zoom_speed) then 0 else zoom_speed in
  let camera_speed := glm.scale camera_speed (camera_dumping * delta) in
  let camera_speed :=
    if is_zero (glm.length camera_speed) then Vec2 0 0 else camera_speed in
  let camera_move_speed := 1 / view.transform_float view 1 in
  let camera_speed :=
    if IsKeyDown_W inp then glm.add camera_speed (Vec2 0 (- camera_move_speed))
    else camera_speed in
  let camera_speed :=
    if IsKeyDown_S inp then glm.add camera_speed (Vec2 0 camera_move_speed)
    else camera_speed in
  let camera_speed :=
    if IsKeyDown_A inp then glm.add camera_speed (Vec2 camera_move_speed 0)
    else camera_speed in
  let camera_speed :=
    if IsKeyDown_D inp then glm.add camera_speed (Vec2 (- camera_move_speed) 0)
    else camera_speed in
  let mouse_wheel := GetMouseWheelMove inp in
  let zoom_speed :=
    if neqb mouse_wheel 0 then (mouse_wheel / Rabs mouse_wheel) * zoom_max_speed
    else zoom_speed in
  let view :=
    if negb (is_zero (glm.length camera_speed))
    then view.translate view (glm.scale camera_speed delta)
    else view in
  let view :=
    if negb (is_zero zoom_speed)
       && negb (ltb zoom_speed 0 && ltb (view.transform_float view 1) (1 / 10))
    then view.scale view (1 + zoom_speed * delta)
    else view in
  Camera view zoom_speed camera_speed.

(** ** [piston.cpp]: drawing and the loop body *)

Module PistonApp.

(** [void draw_crankshaft(const view&, const engine&)] *)
Definition draw_crankshaft (v : view.view) (params : Piston.engine)
    : list raylib.call :=
  let color := raylib.MkColor 50 50 200 255 in
  let origin := Vec2 0 0 in
  let crank :=
    Vec2 (cos (Piston.angle (Piston.crank params))
          * Piston.crank_radius (Piston.crank params))
         (sin (Piston.angle (Piston.crank params))
          * Piston.crank_radius (Piston.crank params)) in
  let bearing_size := 10 in
  [ raylib.DrawCircleV (view.transform_vec2 v origin)
      (view.transform_float v bearing_size) color ]
  ++ draw_rectangle v origin crank 10 color
  ++ [ raylib.DrawCircleV (view.transform_vec2 v crank)
         (view.transform_float v bearing_size) color ].

(** [void draw_connecting_rod(const view&, const engine&, const vec2&)] *)
Definition draw_connecting_rod (v : view.view) (params : Piston.engine)
    (piston_position : vec2) : list raylib.call :=
  let color := raylib.MkColor 200 50 50 255 in
  let crank :=
    Vec2 (cos (Piston.angle (Piston.crank params))
          * Piston.crank_radius (Piston.crank params))
         (sin (Piston.angle (Piston.crank params))
          * Piston.crank_radius (Piston.crank params)) in
  let bearing_size := 10 in
  [ raylib.DrawCircleV (view.transform_vec2 v crank)
      (view.transform_float v bearing_size) color ]
  ++ draw_rectangle v crank piston_position 10 color
  ++ [ raylib.DrawCircleV (view.transform_vec2 v piston_position)
         (view.transform_float v bearing_size) color ].

(** [void draw_piston(const view&, const engine&, const vec2&)] *)
Definition draw_piston (v : view.view) (params : Piston.engine)
    (piston_position : vec2) : list raylib.call :=
  let color := raylib.MkColor 50 200 50 255 in
  let piston_length := 30 in
  let start := piston_position in
  let end_ :=
    glm.add piston_position
      (glm.scale (glm.normalize (Piston.direction (Piston.cylinder_ params)))
         piston_length) in
  draw_rectangle v start end_ 50 color.

(** [void draw_cylinder_guides(interface&, const view&, engine&)]: the
    interface and the engine after the call, and the calls made. *)
Definition draw_cylinder_guides (iface : interface.interface) (v : view.view)
    (params : Piston.engine) (inp : input)
    : interface.interface * Piston.engine * list raylib.call :=
  let color := raylib.MkColor 150 150 175 255 in
  let origin := Piston.origin (Piston.cylinder_ params) in
  let direction := Piston.direction (Piston.cylinder_ params) in
  let guide_origin_radius := 20 in
  let mouse_position := view.inverse_transform_Vector2 v (GetMousePosition inp) in
  let guide_position_active :=
    ltb (glm.length (glm.sub mouse_position origin)) guide_origin_radius in
  let iface :=
    if interface.component_eqb (interface.active_component iface) interface.NONE
       && guide_position_active && IsMouseButtonDown_LEFT inp
    then interface.set_active_component iface interface.CYLINDER_GUIDE_POSITION
    else iface in
  let '(color, origin) :=
    if interface.component_eqb (interface.active_component iface)
         interface.CYLINDER_GUIDE_POSITION
    then (raylib.MkColor 100 100 255 255, mouse_position)
    else (color, origin) in
  let guide_direction_active :=
    ltb (glm.length (glm.sub mouse_position (glm.add origin direction)))
      guide_origin_radius in
  let iface :=
    if interface.component_eqb (interface.active_component iface) interface.NONE
       && guide_direction_active && IsMouseButtonDown_LEFT inp
    then interface.set_active_component iface interface.CYLINDER_GUIDE_DIRECTION
    else iface in
  let '(color, direction) :=
    if interface.component_eqb (interface.active_component iface)
         interface.CYLINDER_GUIDE_DIRECTION
    then (raylib.MkColor 100 100 255 255, glm.sub mouse_position origin)
    else (color, direction) in
  let line_direction := glm.scale direction (view.inverse_transform_float v 1000) in
  (iface,
   Piston.Engine (Piston.crank params) (Piston.Cylinder origin direction)
     (Piston.connecting_rod_length params),
   [ raylib.DrawLineV (view.transform_vec2 v (glm.sub origin line_direction))
       (view.transform_vec2 v (glm.add origin line_direction)) color;
     raylib.DrawCircleV (view.transform_vec2 v origin)
       (view.transform_float v guide_origin_radius) color;
     raylib.DrawCircleV (view.transform_vec2 v origin)
       (view.transform_float v (guide_origin_radius * (8 / 10))) raylib.WHITE;
     raylib.DrawCircleV (view.transform_vec2 v (glm.add origin direction))
       (view.transform_float v guide_origin_radius) color;
     raylib.DrawCircleV (view.transform_vec2 v (glm.add origin direction))
       (view.transform_float v (guide_origin_radius * (8 / 10))) raylib.WHITE ]).

(** The variables of [main] that live across iterations of the loop. *)
Record state : Type := State {
  engine_ : Piston.engine;
  interface_ : interface.interface;
  camera_ : camera
}.

(** [main] before the loop. *)
Definition initial : state :=
  State (Piston.Engine (Piston.Crankshaft 50 0)
           (Piston.Cylinder (Vec2 0 0) (Vec2 0 20)) 70)
        interface.initial
        (Camera view.initial 0 (Vec2 0 0)).

(** The assignment [engine.crank.angle += 0.05 * delta]. *)
Definition advance_angle (engine : Piston.engine) (delta : R) : Piston.engine :=
  Piston.Engine
    (Piston.Crankshaft (Piston.crank_radius (Piston.crank engine))
       (Piston.angle (Piston.crank engine) + 5 / 100 * delta))
    (Piston.cylinder_ engine) (Piston.connecting_rod_length engine).

(** One iteration of the loop of [main]: the state after it and the calls
    made into raylib. *)
Definition frame (inp : input) (st : state) : state * list raylib.call :=
  let engine := engine_ st in
  let iface := interface_ st in
  let view := camera_view (camera_ st) in
  let delta := GetFrameTime inp / (16 / 1000) in
  let engine := advance_angle engine delta in
  let calls := draw_coordinates view ++ draw_crankshaft view engine in
  let piston_position := Piston.calculate engine in
  let calls :=
    if Piston.is_valid piston_position
    then calls ++ draw_connecting_rod view engine (Piston.value piston_position)
               ++ draw_piston view engine (Piston.value piston_position)
    else calls in
  let '(iface, engine, calls) :=
    if interface.show_cylinder_guides iface
    then let '(iface, engine, guides) := draw_cylinder_guides iface view engine inp in
         (iface, engine, calls ++ guides)
    else (iface, engine, calls) in
  let iface :=
    if IsMouseButtonUp_LEFT inp
    then interface.set_active_component iface interface.NONE
    else iface in
  let cam := control inp delta (camera_ st) in
  (State engine iface cam,
   [ raylib.BeginDrawing; raylib.ClearBackground raylib.RAYWHITE ]
   ++ calls ++ [ raylib.EndDrawing ]).

(** The loop of [main] over the frames whose inputs are given: the state
    when the last of them ends and all calls made, in order. *)
Fixpoint run (inps : list input) (st : state) : state * list raylib.call :=
  match inps with
  | [] => (st, [])
  | inp :: rest =>
      let '(st, calls) := frame inp st in
      let '(st, calls') := run rest st in
      (st, calls ++ calls')
  end.

End PistonApp.

(** ** The stateful revision: drawing and the loop body *)

Module StatefulApp.

(** [void draw_crankshaft(const view&, const engine&)] *)
Definition draw_crankshaft (v : view.view) (engine : Stateful.engine)
    : list raylib.call :=
  let color := raylib.MkColor 50 50 200 255 in
  let origin := Vec2 0 0 in
  let bearing_size := 10 in
  [ raylib.DrawCircleV (view.transform_vec2 v origin)
      (view.transform_float v bearing_size) color ]
  ++ draw_rectangle v origin
       (Stateful.crankpin_position (Stateful.crankshaft_ engine)) 10 color
  ++ [ raylib.DrawCircleV
         (view.transform_vec2 v
            (Stateful.crankpin_position (Stateful.crankshaft_ engine)))
         (view.transform_float v bearing_size) color ].

(** [void draw_connecting_rod(const view&, const engine&)] *)
Definition draw_connecting_rod (v : view.view) (engine : Stateful.engine)
    : list raylib.call :=
  let color := raylib.MkColor 200 50 50 255 in
  let bearing_size := 10 in
  [ raylib.DrawCircleV
      (view.transform_vec2 v
         (Stateful.crankpin_position (Stateful.crankshaft_ engine)))
      (view.transform_float v bearing_size) color ]
  ++ draw_rectangle v
       (Stateful.crankpin_position (Stateful.crankshaft_ engine))
       (Stateful.position (Stateful.piston_ engine)) 10 color
  ++ [ raylib.DrawCircleV
         (view.transform_vec2 v (Stateful.position (Stateful.piston_ engine)))
         (view.transform_float v bearing_size) color ].

(** [void draw_piston(const view&, const engine&)] *)
Definition draw_piston (v : view.view) (engine : Stateful.engine)
    : list raylib.call :=
  let color := raylib.MkColor 50 200 50 255 in
  let piston_length := 30 in
  let start := Stateful.position (Stateful.piston_ engine) in
  let end_ :=
    glm.add (Stateful.position (Stateful.piston_ engine))
      (glm.scale (glm.normalize (Stateful.direction (Stateful.cylinder_ engine)))
         piston_length) in
  draw_rectangle v start end_ 50 color.

(** [void draw_cylinder_guides(interface&, const view&, engine&)], with
    [set_active] and [is_active]. *)
Definition draw_cylinder_guides (iface : interface.interface) (v : view.view)
    (params : Stateful.engine) (inp : input)
    : interface.interface * Stateful.engine * list raylib.call :=
  let color := raylib.MkColor 150 150 175 255 in
  let origin := Stateful.origin (Stateful.cylinder_ params) in
  let direction := Stateful.direction (Stateful.cylinder_ params) in
  let guide_origin_radius := 20 in
  let mouse_position := view.inverse_transform_Vector2 v (GetMousePosition inp) in
  let guide_position_active :=
    ltb (glm.length (glm.sub mouse_position origin)) guide_origin_radius in
  let iface :=
    if guide_position_active && IsMouseButtonDown_LEFT inp
    then interface.set_active iface interface.CYLINDER_GUIDE_POSITION
    else iface in
  let '(color, origin) :=
    if interface.is_active iface interface.CYLINDER_GUIDE_POSITION
    then (raylib.MkColor 100 100 255 255, mouse_position)
    else (color, origin) in
  let guide_direction_active :=
    ltb (glm.length (glm.sub mouse_position (glm.add origin direction)))
      guide_origin_radius in
  let iface :=
    if guide_direction_active && IsMouseButtonDown_LEFT inp
    then interface.set_active iface interface.CYLINDER_GUIDE_DIRECTION
    else iface in
  let '(color, direction) :=
    if interface.is_active iface interface.CYLINDER_GUIDE_DIRECTION
    then (raylib.MkColor 100 100 255 255, glm.sub mouse_position origin)
    else (color, direction) in
  let line_direction := glm.scale direction (view.inverse_transform_float v 1000) in
  (iface,
   Stateful.Engine (Stateful.crankshaft_ params) (Stateful.Cylinder origin direction)
     (Stateful.piston_ params) (Stateful.connecting_rod_length params),
   [ raylib.DrawLineV (view.transform_vec2 v (glm.sub origin line_direction))
       (view.transform_vec2 v (glm.add origin line_direction)) color;
     raylib.DrawCircleV (view.transform_vec2 v origin)
       (view.transform_float v guide_origin_radius) color;
     raylib.DrawCircleV (view.transform_vec2 v origin)
       (view.transform_float v (guide_origin_radius * (8 / 10))) raylib.WHITE;
     raylib.DrawCircleV (view.transform_vec2 v (glm.add origin direction))
       (view.transform_float v guide_origin_radius) color;
     raylib.DrawCircleV (view.transform_vec2 v (glm.add origin direction))
       (view.transform_float v (guide_origin_radius * (8 / 10))) raylib.WHITE ]).

(** The variables of [main] that live across iterations of the loop. *)
Record state : Type := State {
  engine_ : Stateful.engine;
  interface_ : interface.interface;
  camera_ : camera
}.

(** [main] before the loop. *)
Definition initial : state :=
  State Stateful.initial interface.initial (Camera view.initial 0 (Vec2 0 0)).

(** The assignment [engine.crankshaft.angle += 0.05 * delta]. *)
Definition advance_angle (engine : Stateful.engine) (delta : R) : Stateful.engine :=
  Stateful.Engine
    (Stateful.Crankshaft (Stateful.crank_radius (Stateful.crankshaft_ engine))
       (Stateful.crankpin_position (Stateful.crankshaft_ engine))
       (Stateful.angle (Stateful.crankshaft_ engine) + 5 / 100 * delta))
    (Stateful.cylinder_ engine) (Stateful.piston_ engine)
    (Stateful.connecting_rod_length engine).

(** One iteration of the loop of [main]. *)
Definition frame (inp : input) (st : state) : state * list raylib.call :=
  let engine := engine_ st in
  let iface := interface_ st in
  let view := camera_view (camera_ st) in
  let delta := GetFrameTime inp / (16 / 1000) in
  let engine := advance_angle engine delta in
  let engine := Stateful.calculate_positions engine in
  let calls := draw_coordinates view ++ draw_crankshaft view engine in
  let calls :=
    if Stateful.exists_ (Stateful.piston_ engine)
    then calls ++ draw_connecting_rod view engine ++ draw_piston view engine
    else calls in
  let '(iface, engine, calls) :=
    if interface.show_cylinder_guides iface
    then let '(iface, engine, guides) := draw_cylinder_guides iface view engine inp in
         (iface, engine, calls ++ guides)
    else (iface, engine, calls) in
  let iface :=
    if IsMouseButtonUp_LEFT inp
    then interface.set_active_component iface interface.NONE
    else iface in
  let cam := control inp delta (camera_ st) in
  (State engine iface cam,
   [ raylib.BeginDrawing; raylib.ClearBackground raylib.RAYWHITE ]
   ++ calls ++ [ raylib.EndDrawing ]).

(** The loop of [main] over the frames whose inputs are given: the state
    when the last of them ends and all calls made, in order. *)
Fixpoint run (inps : list input) (st : state) : state * list raylib.call :=
  match inps with
  | [] => (st, [])
  | inp :: rest =>
      let '(st, calls) := frame inp st in
      let '(st, calls') := run rest st in
      (st, calls ++ calls')
  end.

End StatefulApp.

(** ** The first revision in [piston.cpp]: guides without an interface

    The second half of [piston.cpp] is the program before [struct
    interface] was introduced; its crank radius is the member [radius]. *)

Module Earliest.

(** [struct engine::crankshaft] *)
Record crankshaft : Type := Crankshaft {
  radius : R;
  angle : R
}.

(** [struct engine::cylinder] *)
Record cylinder : Type := Cylinder {
  origin : vec2;
  direction : vec2
}.

(** [struct engine] *)
Record engine : Type := Engine {
  crank : crankshaft;
  cylinder_ : cylinder;
  connecting_rod_length : R
}.

(** [void draw_cylinder_guides(const view&, engine&)]: the engine after
    the call and the calls made. *)
Definition draw_cylinder_guides (v : view.view) (params : engine) (inp : input)
    : engine * list raylib.call :=
  let color := raylib.MkColor 150 150 175 255 in
  let origin := origin (cylinder_ params) in
  let direction := direction (cylinder_ params) in
  let guide_origin_radius := 20 in
  let mouse_position := view.inverse_transform_Vector2 v (GetMousePosition inp) in
  let '(color, origin) :=
    if ltb (glm.length (glm.sub mouse_position origin)) guide_origin_radius
    then (raylib.MkColor 100 100 255 255,
          if IsMouseButtonDown_LEFT inp then mouse_position else origin)
    else (color, origin) in
  let '(color, direction) :=
    if ltb (glm.length (glm.sub mouse_position (glm.add origin direction)))
         guide_origin_radius
    then (raylib.MkColor 100 100 255 255,
          if IsMouseButtonDown_LEFT inp then glm.sub mouse_position origin
          else direction)
    else (color, direction) in
  let line_direction := glm.scale direction (view.inverse_transform_float v 1000) in
  (Engine (crank params) (Cylinder origin direction) (connecting_rod_length params),
   [ raylib.DrawLineV (view.transform_vec2 v (glm.sub origin line_direction))
       (view.transform_vec2 v (glm.add origin line_direction)) color;
     raylib.DrawCircleV (view.transform_vec2 v origin)
       (view.transform_float v guide_origin_radius) color;
     raylib.DrawCircleV (view.transform_vec2 v origin)
       (view.transform_float v (guide_origin_radius * (8 / 10))) raylib.WHITE;
     raylib.DrawCircleV (view.transform_vec2 v (glm.add origin direction))
       (view.transform_float v guide_origin_radius) color;
     raylib.DrawCircleV (view.transform_vec2 v (glm.add origin direction))
       (view.transform_float v (guide_origin_radius * (8 / 10))) raylib.WHITE ]).

End Earliest.

(** The state of [piston.cpp] that corresponds to a state of the stateful
    revision: the same parameters, interface and camera. *)
Definition project (st : StatefulApp.state) : PistonApp.state :=
  PistonApp.State (Stateful.snapshot (StatefulApp.engine_ st))
    (StatefulApp.interface_ st) (StatefulApp.camera_ st).

(** A state in the middle of a drag of the position handle, and a frame
    in which the button is still down. *)
Definition dragging : PistonApp.state :=
  PistonApp.State (scenario 0)
    (interface.Interface true interface.CYLINDER_GUIDE_POSITION)
    (Camera view.initial 0 (Vec2 0 0)).

Definition button_down_at (p : raylib.Vector2) : input :=
  Input (16 / 1000) p true false false false false false 0.

(** The stateful state [st] with another crankpin and piston stored. *)
Definition with_stored (st : StatefulApp.state) (crankpin : vec2)
    (piston : Stateful.piston) : StatefulApp.state :=
  StatefulApp.State
    (Stateful.Engine
       (Stateful.Crankshaft
          (Stateful.crank_radius (Stateful.crankshaft_ (StatefulApp.engine_ st)))
          crankpin
          (Stateful.angle (Stateful.crankshaft_ (StatefulApp.engine_ st))))
       (Stateful.cylinder_ (StatefulApp.engine_ st))
       piston
       (Stateful.connecting_rod_length (StatefulApp.engine_ st)))
    (StatefulApp.interface_ st) (StatefulApp.camera_ st).

(** ** The solver in binary32

    The two revisions of the solver once more, now with the arithmetic of
    the machine: [float] is IEEE 754 binary32 (24 bits of precision), every
    operation rounds to nearest, ties to even, and produces infinities,
    NaN and signed zeros as the hardware does.  The operations are those
    of [SpecFloat] at precision 24 and maximal exponent 128, so every
    definition below computes.

    [cos] and [sin] are the C library's, reached through GLM, and not part
    of the sources; the solver takes them as a parameter [libm].
    Statements about every input hold for every [libm]; evaluations at
    one input use [libm_table], which has the values at the angles [0]
    and [0.125] and no other. *)

Module F32.

Definition float : Type := spec_float.

Definition prec : Z := 24.
Definition emax : Z := 128.

Definition add : float -> float -> float := SFadd prec emax.
Definition sub : float -> float -> float := SFsub prec emax.
Definition mul : float -> float -> float := SFmul prec emax.
Definition div : float -> float -> float := SFdiv prec emax.
Definition sqrt : float -> float := SFsqrt prec emax.
Definition neg : float -> float := SFopp.
Definition abs : float -> float := SFabs.
Definition ltb : float -> float -> bool := SFltb.

(** The float nearest to [m * 2 ^ e]; the conversion of an [int]. *)
Definition make (m e : Z) : float := binary_normalize prec emax m e false.
Definition of_int (n : Z) : float := make n 0.

(** Neither an infinity nor NaN. *)
Definition is_finite (a : float) : bool :=
  match a with
  | S754_zero _ | S754_finite _ _ _ => true
  | S754_infinity _ | S754_nan => false
  end.


(** [const float EPSILON = 0.001f;]: the float nearest to [1/1000]. *)
Definition EPSILON : float := div (of_int 1) (of_int 1000).

(** [bool is_zero(const float a) { return abs(a) < EPSILON; }] *)
Definition is_zero (a : float) : bool := ltb (abs a) EPSILON.

(** [float square(const float a) { return a * a; }] *)
Definition square (a : float) : float := mul a a.

(** [glm::vec2] and the operations on it, as in [glm] above. *)
Record vec2 : Type := Vec2 { x : float; y : float }.

Definition vadd (u v : vec2) : vec2 := Vec2 (add (x u) (x v)) (add (y u) (y v)).

Definition vscale (v : vec2) (s : float) : vec2 := Vec2 (mul (x v) s) (mul (y v) s).

Definition dot (u v : vec2) : float := add (mul (x u) (x v)) (mul (y u) (y v)).

Definition inversesqrt (s : float) : float := div (of_int 1) (sqrt s).

Definition normalize (v : vec2) : vec2 := vscale v (inversesqrt (dot v v)).


(** The C library. *)
Record libm : Type := Libm {
  cos : float -> float;
  sin : float -> float
}.

(** [cos] and [sin] at the angles [0] and [0.125]: [cos 0 = 1] and
    [sin 0 = 0] exactly, as the C standard has them, and the floats
    nearest to [cos 0.125] and [sin 0.125],
    [0x1.fc0156p-1] and [0x1.feaaeep-4]; NaN stands for every value the
    table does not have. *)
Definition libm_table : libm :=
  Libm (fun a => if SFeqb a (of_int 0) then of_int 1
                 else if SFeqb a (make 1 (- 3)) then make 16646315 (- 24)
                 else S754_nan)
       (fun a => if SFeqb a (of_int 0) then a
                 else if SFeqb a (make 1 (- 3)) then make 16733559 (- 27)
                 else S754_nan).

(** *** [piston.cpp] *)

Module Piston.

Record crankshaft : Type := Crankshaft {
  crank_radius : float;
  angle : float
}.

Record cylinder : Type := Cylinder {
  origin : vec2;
  direction : vec2
}.

Record engine : Type := Engine {
  crank : crankshaft;
  cylinder_ : cylinder;
  connecting_rod_length : float
}.

Record piston_position : Type := PistonPosition {
  is_valid : bool;
  value : vec2
}.

Definition invalid : piston_position :=
  PistonPosition false (Vec2 (of_int 0) (of_int 0)).

Definition valid (position : vec2) : piston_position :=
  PistonPosition true position.

(** [piston_position::calculate(engine)], statement by statement. *)
Definition calculate (m : libm) (engine : engine) : piston_position :=
  let cylinder_direction := normalize (direction (cylinder_ engine)) in
  let dx := x cylinder_direction in
  let dy := y cylinder_direction in
  let lx := x (origin (cylinder_ engine)) in
  let ly := y (origin (cylinder_ engine)) in
  let r := crank_radius (crank engine) in
  let rcr := connecting_rod_length engine in
  let alpha := angle (crank engine) in
  let a := add (square dx) (square dy) in
  let b :=
    mul (of_int 2)
      (sub (sub (add (mul lx dx) (mul ly dy)) (mul (mul r dx) (cos m alpha)))
           (mul (mul r dy) (sin m alpha))) in
  let c :=
    add (sub (sub (sub (add (square lx) (square ly))
                       (mul (mul (mul (of_int 2) r) lx) (cos m alpha)))
                  (mul (mul (mul (of_int 2) r) ly) (sin m alpha)))
             (square rcr))
        (square r) in
  let discriminant := sub (square b) (mul (mul (of_int 4) a) c) in
  let divisor := mul (of_int 2) a in
  if is_zero divisor then invalid
  else if ltb discriminant (of_int 0) then invalid
  else
    let t := div (add (neg b) (sqrt discriminant)) divisor in
    valid (vadd (origin (cylinder_ engine)) (vscale cylinder_direction t)).

(** The values of the locals [a], [b], [c], [discriminant], [divisor] and
    [t] of [calculate]. *)
Definition a (e : engine) : float :=
  add (square (x (normalize (direction (cylinder_ e)))))
      (square (y (normalize (direction (cylinder_ e))))).

Definition b (m : libm) (e : engine) : float :=
  mul (of_int 2)
    (sub (sub (add (mul (x (origin (cylinder_ e)))
                        (x (normalize (direction (cylinder_ e)))))
                   (mul (y (origin (cylinder_ e)))
                        (y (normalize (direction (cylinder_ e))))))
              (mul (mul (crank_radius (crank e))
                        (x (normalize (direction (cylinder_ e)))))
                   (cos m (angle (crank e)))))
         (mul (mul (crank_radius (crank e))
                   (y (normalize (direction (cylinder_ e)))))
              (sin m (angle (crank e))))).

Definition c (m : libm) (e : engine) : float :=
  add (sub (sub (sub (add (square (x (origin (cylinder_ e))))
                          (square (y (origin (cylinder_ e)))))
                     (mul (mul (mul (of_int 2) (crank_radius (crank e)))
                               (x (origin (cylinder_ e))))
                          (cos m (angle (crank e)))))
                (mul (mul (mul (of_int 2) (crank_radius (crank e)))
                          (y (origin (cylinder_ e))))
                     (sin m (angle (crank e)))))
           (square (connecting_rod_length e)))
      (square (crank_radius (crank e))).

Definition discriminant (m : libm) (e : engine) : float :=
  sub (square (b m e)) (mul (mul (of_int 4) (a e)) (c m e)).

Definition divisor (e : engine) : float := mul (of_int 2) (a e).

Definition t (m : libm) (e : engine) : float :=
  div (add (neg (b m e)) (sqrt (discriminant m e))) (divisor e).

(** The engine with the given five parameters. *)
Definition engine_with (r L : float) (O D : vec2) (alpha : float) : engine :=
  Engine (Crankshaft r alpha) (Cylinder O D) L.

End Piston.

(** *** The stateful revision *)

Module Stateful.

Record crankshaft : Type := Crankshaft {
  crank_radius : float;
  crankpin_position : vec2;
  angle : float
}.

Record cylinder : Type := Cylinder {
  origin : vec2;
  direction : vec2
}.

Record piston : Type := Piston {
  position : vec2;
  exists_ : bool
}.

Record engine : Type := Engine {
  crankshaft_ : crankshaft;
  cylinder_ : cylinder;
  piston_ : piston;
  connecting_rod_length : float
}.

Definition set_crankpin_position (this : engine) (p : vec2) : engine :=
  Engine (Crankshaft (crank_radius (crankshaft_ this)) p (angle (crankshaft_ this)))
         (cylinder_ this) (piston_ this) (connecting_rod_length this).

Definition set_piston_position (this : engine) (p : vec2) : engine :=
  Engine (crankshaft_ this) (cylinder_ this)
         (Piston p (exists_ (piston_ this))) (connecting_rod_length this).

Definition set_piston_exists (this : engine) (b : bool) : engine :=
  Engine (crankshaft_ this) (cylinder_ this)
         (Piston (position (piston_ this)) b) (connecting_rod_length this).

(** [void engine::calculate_positions()], statement by statement. *)
Definition calculate_positions (m : libm) (this : engine) : engine :=
  let this :=
    set_crankpin_position this
      (Vec2 (mul (cos m (angle (crankshaft_ this))) (crank_radius (crankshaft_ this)))
            (mul (sin m (angle (crankshaft_ this))) (crank_radius (crankshaft_ this)))) in
  let cylinder_direction := normalize (direction (cylinder_ this)) in
  let dx := x cylinder_direction in
  let dy := y cylinder_direction in
  let lx := x (origin (cylinder_ this)) in
  let ly := y (origin (cylinder_ this)) in
  let r := crank_radius (crankshaft_ this) in
  let rcr := connecting_rod_length this in
  let alpha := angle (crankshaft_ this) in
  let rcos := mul r (cos m alpha) in
  let rsin := mul r (sin m alpha) in
  let a := add (square dx) (square dy) in
  let b :=
    mul (of_int 2)
      (sub (sub (add (mul lx dx) (mul ly dy)) (mul dx rcos)) (mul dy rsin)) in
  let c :=
    add (sub (sub (sub (add (square lx) (square ly))
                       (mul (mul (of_int 2) lx) rcos))
                  (mul (mul (of_int 2) ly) rsin))
             (square rcr))
        (square r) in
  let discriminant := sub (square b) (mul (mul (of_int 4) a) c) in
  let divisor := mul (of_int 2) a in
  if is_zero divisor then set_piston_exists this false
  else if ltb discriminant (of_int 0) then set_piston_exists this false
  else
    let t := div (add (neg b) (sqrt discriminant)) divisor in
    let this :=
      set_piston_position this
        (vadd (origin (cylinder_ this)) (vscale cylinder_direction t)) in
    set_piston_exists this true.

(** The values of the locals [b] and [c] of [calculate_positions], where
    [r] is multiplied with the cosine and the sine first. *)
Definition b (m : libm) (this : engine) : float :=
  mul (of_int 2)
    (sub (sub (add (mul (x (origin (cylinder_ this)))
                        (x (normalize (direction (cylinder_ this)))))
                   (mul (y (origin (cylinder_ this)))
                        (y (normalize (direction (cylinder_ this))))))
              (mul (x (normalize (direction (cylinder_ this))))
                   (mul (crank_radius (crankshaft_ this))
                        (cos m (angle (crankshaft_ this))))))
         (mul (y (normalize (direction (cylinder_ this))))
              (mul (crank_radius (crankshaft_ this))
                   (sin m (angle (crankshaft_ this)))))).

Definition c (m : libm) (this : engine) : float :=
  add (sub (sub (sub (add (square (x (origin (cylinder_ this))))
                          (square (y (origin (cylinder_ this)))))
                     (mul (mul (of_int 2) (x (origin (cylinder_ this))))
                          (mul (crank_radius (crankshaft_ this))
                               (cos m (angle (crankshaft_ this))))))
                (mul (mul (of_int 2) (y (origin (cylinder_ this))))
                     (mul (crank_radius (crankshaft_ this))
                          (sin m (angle (crankshaft_ this))))))
           (square (connecting_rod_length this)))
      (square (crank_radius (crankshaft_ this))).

(** The parameter snapshot of the object. *)
Definition snapshot (this : engine) : Piston.engine :=
  Piston.Engine
    (Piston.Crankshaft (crank_radius (crankshaft_ this)) (angle (crankshaft_ this)))
    (Piston.Cylinder (origin (cylinder_ this)) (direction (cylinder_ this)))
    (connecting_rod_length this).

End Stateful.

(** *** Engines used in the statements *)

(** The scenario of the specification: [r = 50], [L = 100], [O = (0,0)],
    [D = (0,20)]. *)
Definition scenario (alpha : float) : Piston.engine :=
  Piston.engine_with (of_int 50) (of_int 100)
    (Vec2 (of_int 0) (of_int 0)) (Vec2 (of_int 0) (of_int 20)) alpha.





End F32.

(** *** Predicates on floats used in the statements *)




(** * Properties *)

(** ** Comparisons *)

Lemma ltb_true_iff (a b : R) : ltb a b = true <-> a < b.
Proof.
  unfold ltb. destruct (Rlt_dec a b) as [H | H]; split; intro G;
    try reflexivity; try assumption; try discriminate; contradiction.
Qed.

Lemma ltb_false_iff (a b : R) : ltb a b = false <-> b <= a.
Proof.
  unfold ltb. destruct (Rlt_dec a b) as [H | H]; split; intro G;
    try reflexivity; try discriminate; lra.
Qed.

Lemma is_zero_true_iff (a : R) : is_zero a = true <-> Rabs a < EPSILON.
Proof. unfold is_zero. apply ltb_true_iff. Qed.

Lemma is_zero_false_iff (a : R) : is_zero a = false <-> EPSILON <= Rabs a.
Proof. unfold is_zero. apply ltb_false_iff. Qed.

Lemma is_zero_0 : is_zero 0 = true.
Proof. apply is_zero_true_iff. rewrite Rabs_R0. unfold EPSILON. lra. Qed.

Lemma is_zero_1 : is_zero 1 = false.
Proof. apply is_zero_false_iff. rewrite Rabs_R1. unfold EPSILON. lra. Qed.

Lemma is_zero_2 : is_zero 2 = false.
Proof.
  apply is_zero_false_iff. rewrite Rabs_pos_eq by lra. unfold EPSILON. lra.
Qed.

(** ** Vectors and normalisation *)

Lemma vec2_eq (u v : vec2) :
  glm.x u = glm.x v -> glm.y u = glm.y v -> u = v.
Proof. destruct u, v; simpl; intros -> ->; reflexivity. Qed.

Lemma dot_self_nonneg (v : vec2) : 0 <= glm.dot v v.
Proof. unfold glm.dot. nra. Qed.

Lemma dot_self_pos (v : vec2) : v <> Vec2 0 0 -> 0 < glm.dot v v.
Proof.
  intro Hv. destruct v as [vx vy]. unfold glm.dot; simpl.
  destruct (Req_dec vx 0) as [Hx | Hx].
  - destruct (Req_dec vy 0) as [Hy | Hy].
    + subst. contradiction Hv. reflexivity.
    + nra.
  - nra.
Qed.

Lemma dot_self_zero (v : vec2) : glm.dot v v = 0 -> v = Vec2 0 0.
Proof.
  destruct v as [vx vy]. unfold glm.dot; simpl. intro H.
  apply vec2_eq; simpl; nra.
Qed.

(** A non-zero vector is normalised to a unit vector. *)
Lemma normalize_unit (v : vec2) :
  v <> Vec2 0 0 ->
  glm.x (glm.normalize v) ^ 2 + glm.y (glm.normalize v) ^ 2 = 1.
Proof.
  intro Hv. pose proof (dot_self_pos v Hv) as Hpos.
  pose proof (sqrt_lt_R0 _ Hpos) as Hs.
  pose proof (sqrt_sqrt _ (Rlt_le _ _ Hpos)) as Hss.
  unfold glm.normalize, glm.inversesqrt, glm.scale; simpl.
  set (s := sqrt (glm.dot v v)) in *.
  unfold glm.dot in Hss.
  field_simplify_eq; [ | lra ]. nra.
Qed.

(** The zero vector stays the zero vector: both components are products
    with a zero factor. *)
Lemma normalize_zero : glm.normalize (Vec2 0 0) = Vec2 0 0.
Proof.
  unfold glm.normalize, glm.scale; simpl. apply vec2_eq; simpl; ring.
Qed.

(** Normalisation forgets a positive scale factor. *)
Lemma normalize_scale (v : vec2) (k : R) :
  0 < k -> glm.normalize (glm.scale v k) = glm.normalize v.
Proof.
  intro Hk. destruct (Req_dec (glm.dot v v) 0) as [Hz | Hnz].
  - apply dot_self_zero in Hz. subst v.
    unfold glm.normalize, glm.scale; simpl. apply vec2_eq; simpl; ring.
  - pose proof (dot_self_nonneg v) as Hge.
    assert (Hpos : 0 < glm.dot v v) by lra.
    pose proof (sqrt_lt_R0 _ Hpos) as Hs.
    assert (Hd : glm.dot (glm.scale v k) (glm.scale v k) = (k * k) * glm.dot v v)
      by (unfold glm.dot, glm.scale; simpl; ring).
    unfold glm.normalize, glm.inversesqrt. rewrite Hd.
    rewrite sqrt_mult by nra. rewrite sqrt_square by lra.
    unfold glm.scale; simpl. apply vec2_eq; simpl; field; lra.
Qed.

Lemma normalize_of_unit (v : vec2) : glm.dot v v = 1 -> glm.normalize v = v.
Proof.
  intro H. unfold glm.normalize, glm.inversesqrt. rewrite H, sqrt_1.
  apply vec2_eq; simpl; field.
Qed.

(** ** The solver in terms of the quadratic *)

Section Solver.
Variable e : Piston.engine.

(** The leading coefficient is the squared length of the normalised
    direction: [1], or [0] for the zero direction. *)
Lemma a_nondegenerate : Spec.D e <> Vec2 0 0 -> Spec.a e = 1.
Proof. intro H. unfold Spec.a, Spec.d. apply normalize_unit, H. Qed.

Lemma a_degenerate : Spec.D e = Vec2 0 0 -> Spec.a e = 0.
Proof.
  intro H. unfold Spec.a, Spec.d. rewrite H, normalize_zero. simpl. ring.
Qed.

Lemma a_cases : Spec.a e = 0 \/ Spec.a e = 1.
Proof.
  destruct (Req_dec (glm.dot (Spec.D e) (Spec.D e)) 0) as [Hz | Hnz].
  - left. apply a_degenerate, dot_self_zero, Hz.
  - right. apply a_nondegenerate. intro H. apply Hnz. rewrite H.
    unfold glm.dot; simpl. ring.
Qed.

(** The test of the source, on [divisor = 2 * a], and the test of the
    specification, on [a], agree. *)
Lemma is_zero_divisor : is_zero (2 * Spec.a e) = is_zero (Spec.a e).
Proof.
  destruct a_cases as [-> | ->].
  - rewrite Rmult_0_r. reflexivity.
  - rewrite Rmult_1_r, is_zero_1, is_zero_2. reflexivity.
Qed.

(** [calculate] with its local variables named as in the specification. *)
Lemma calculate_unfold :
  Piston.calculate e =
  if is_zero (2 * Spec.a e) then Piston.invalid
  else if ltb (Spec.discriminant e) 0 then Piston.invalid
  else Piston.valid (Spec.axis e (Spec.t_plus e)).
Proof.
  unfold Piston.calculate; cbv zeta.
  fold (Spec.D e) (Spec.O e) (Spec.r e) (Spec.L e) (Spec.alpha e).
  fold (Spec.d e).
  assert (Ha : square (glm.x (Spec.d e)) + square (glm.y (Spec.d e)) = Spec.a e)
    by (unfold Spec.a, square; ring).
  assert (Hc : square (glm.x (Spec.O e)) + square (glm.y (Spec.O e))
               - 2 * Spec.r e * glm.x (Spec.O e) * cos (Spec.alpha e)
               - 2 * Spec.r e * glm.y (Spec.O e) * sin (Spec.alpha e)
               - square (Spec.L e) + square (Spec.r e) = Spec.c e)
    by (unfold Spec.c, square; ring).
  rewrite Ha, Hc. fold (Spec.b e).
  assert (Hd : square (Spec.b e) - 4 * Spec.a e * Spec.c e = Spec.discriminant e)
    by (unfold Spec.discriminant, square; ring).
  rewrite Hd. reflexivity.
Qed.

Lemma calculate_solve : Piston.calculate e = Spec.solve e.
Proof. rewrite calculate_unfold, is_zero_divisor. reflexivity. Qed.


Lemma is_valid_true_iff :
  Piston.is_valid (Piston.calculate e) = true <->
  is_zero (2 * Spec.a e) = false /\ 0 <= Spec.discriminant e.
Proof.
  rewrite calculate_unfold.
  destruct (is_zero (2 * Spec.a e)) eqn:Hz.
  - simpl. split; [ discriminate | intros [H _]; discriminate ].
  - destruct (ltb (Spec.discriminant e) 0) eqn:Hd; simpl.
    + apply ltb_true_iff in Hd. split; [ discriminate | intros [_ H]; lra ].
    + apply ltb_false_iff in Hd. split; auto.
Qed.

Lemma calculate_valid :
  Piston.is_valid (Piston.calculate e) = true ->
  Piston.calculate e = Piston.valid (Spec.axis e (Spec.t_plus e)).
Proof.
  intro H. pose proof H as H'. apply is_valid_true_iff in H' as [Hz Hd].
  rewrite calculate_unfold, Hz.
  apply ltb_false_iff in Hd. rewrite Hd. reflexivity.
Qed.


(** A valid result means a proper quadratic: [a = 1]. *)
Lemma valid_a :
  Piston.is_valid (Piston.calculate e) = true -> Spec.a e = 1.
Proof.
  intro H. apply is_valid_true_iff in H as [Hz _].
  destruct a_cases as [H0 | H1]; [ | exact H1 ].
  rewrite H0, Rmult_0_r, is_zero_0 in Hz. discriminate.
Qed.

(** *** Roots *)

Lemma t_plus_root :
  Spec.a e <> 0 -> 0 <= Spec.discriminant e ->
  Spec.a e * Spec.t_plus e ^ 2 + Spec.b e * Spec.t_plus e + Spec.c e = 0.
Proof.
  intros Ha Hd. pose proof (sqrt_sqrt _ Hd) as Hs.
  unfold Spec.t_plus. set (s := sqrt (Spec.discriminant e)) in *.
  unfold Spec.discriminant in Hs.
  field_simplify_eq; [ | exact Ha ]. nra.
Qed.

Lemma t_minus_root :
  Spec.a e <> 0 -> 0 <= Spec.discriminant e ->
  Spec.a e * Spec.t_minus e ^ 2 + Spec.b e * Spec.t_minus e + Spec.c e = 0.
Proof.
  intros Ha Hd. pose proof (sqrt_sqrt _ Hd) as Hs.
  unfold Spec.t_minus. set (s := sqrt (Spec.discriminant e)) in *.
  unfold Spec.discriminant in Hs.
  field_simplify_eq; [ | exact Ha ]. nra.
Qed.

Lemma t_minus_le_t_plus :
  0 < Spec.a e -> Spec.t_minus e <= Spec.t_plus e.
Proof.
  intro Ha. pose proof (sqrt_pos (Spec.discriminant e)) as Hs.
  unfold Spec.t_minus, Spec.t_plus.
  apply Rmult_le_compat_r; [ | lra ].
  apply Rlt_le, Rinv_0_lt_compat. lra.
Qed.

End Solver.

(** ** The stateful revision in terms of the same quadratic *)

Section StatefulSolver.
Variable this : Stateful.engine.

Local Abbreviation e := (Stateful.snapshot this).

(** [calculate_positions] with its local variables named as in the
    specification.  The source multiplies [r] with the cosine and sine
    first ([rcos], [rsin]); over the reals the products are those of
    [Spec.b] and [Spec.c]. *)
Lemma calculate_positions_unfold :
  Stateful.calculate_positions this =
  if is_zero (2 * Spec.a e) then Stateful.set_piston_exists (with_crankpin this) false
  else if ltb (Spec.discriminant e) 0
       then Stateful.set_piston_exists (with_crankpin this) false
       else Stateful.set_piston_exists
              (Stateful.set_piston_position (with_crankpin this)
                 (Spec.axis e (Spec.t_plus e)))
              true.
Proof.
  unfold Stateful.calculate_positions; cbv zeta.
  match goal with
  | |- (if is_zero ?X then _ else _) = _ =>
      assert (Ha : X = 2 * Spec.a e)
        by (unfold Spec.a, Spec.d, Spec.D, Stateful.snapshot, square; cbn; ring);
      rewrite Ha
  end.
  destruct (is_zero (2 * Spec.a e)); [ reflexivity | ].
  match goal with
  | |- (if ltb ?X 0 then _ else _) = _ =>
      assert (Hd : X = Spec.discriminant e)
        by (unfold Spec.discriminant, Spec.a, Spec.b, Spec.c, Spec.d, Spec.D, Spec.O,
              Spec.L, Spec.r, Spec.alpha, Stateful.snapshot, square; cbn; ring);
      rewrite Hd
  end.
  destruct (ltb (Spec.discriminant e) 0); [ reflexivity | ].
  match goal with
  | |- context [ - ?X + sqrt _ ] =>
      assert (Hb : X = Spec.b e)
        by (unfold Spec.b, Spec.d, Spec.D, Spec.O, Spec.r, Spec.alpha,
              Stateful.snapshot; cbn; ring);
      rewrite Hb
  end.
  reflexivity.
Qed.

(** The flag after the call is the validity of the pure result. *)
Lemma exists_is_valid :
  Stateful.exists_ (Stateful.piston_ (Stateful.calculate_positions this))
  = Piston.is_valid (Piston.calculate e).
Proof.
  rewrite calculate_positions_unfold, calculate_unfold.
  destruct (is_zero (2 * Spec.a e)); [ reflexivity | ].
  destruct (ltb (Spec.discriminant e) 0); reflexivity.
Qed.

(** The position after the call: the new one on the valid path, the
    old one otherwise. *)
Lemma position_after :
  Stateful.position (Stateful.piston_ (Stateful.calculate_positions this))
  = if Piston.is_valid (Piston.calculate e)
    then Piston.value (Piston.calculate e)
    else Stateful.position (Stateful.piston_ this).
Proof.
  rewrite calculate_positions_unfold, calculate_unfold.
  destruct (is_zero (2 * Spec.a e)); [ reflexivity | ].
  destruct (ltb (Spec.discriminant e) 0); reflexivity.
Qed.

End StatefulSolver.

(** ** A vertical cylinder

    For a direction [(0, k)] with [k > 0] the quadratic has a closed form:
    the piston is above the crankpin by the height of the right triangle
    with hypotenuse [L] and base the horizontal offset of the crankpin. *)

Section Vertical.
Variables (r L Ox Oy k alpha : R).
Hypothesis k_pos : 0 < k.

Local Abbreviation e := (engine_with r L (Vec2 Ox Oy) (Vec2 0 k) alpha).

Lemma vertical_d : Spec.d e = Vec2 0 1.
Proof.
  unfold Spec.d, Spec.D; cbn.
  replace (Vec2 0 k) with (glm.scale (Vec2 0 1) k)
    by (apply vec2_eq; cbn; ring).
  rewrite normalize_scale by exact k_pos.
  apply normalize_of_unit. unfold glm.dot; cbn. ring.
Qed.

Lemma vertical_a : Spec.a e = 1.
Proof. unfold Spec.a. rewrite vertical_d. cbn. ring. Qed.

Lemma vertical_b : Spec.b e = 2 * (Oy - r * sin alpha).
Proof. unfold Spec.b. rewrite vertical_d. cbn. ring. Qed.

Lemma vertical_discriminant :
  Spec.discriminant e = 4 * (L ^ 2 - (Ox - r * cos alpha) ^ 2).
Proof.
  unfold Spec.discriminant. rewrite vertical_a, vertical_b.
  pose proof (sin2_cos2 alpha) as Htrig. unfold Rsqr in Htrig.
  unfold Spec.c; cbn.
  set (cs := cos alpha) in *. set (sn := sin alpha) in *.
  apply Rminus_diag_uniq.
  transitivity (4 * r ^ 2 * (sn * sn + cs * cs - 1));
    [ ring | rewrite Htrig; ring ].
Qed.

Lemma vertical_valid :
  (Ox - r * cos alpha) ^ 2 <= L ^ 2 ->
  Piston.calculate e =
  Piston.valid
    (Vec2 Ox (r * sin alpha + sqrt (L ^ 2 - (Ox - r * cos alpha) ^ 2))).
Proof.
  intro H. rewrite calculate_unfold, vertical_a, Rmult_1_r, is_zero_2.
  assert (Hd : 0 <= Spec.discriminant e) by (rewrite vertical_discriminant; lra).
  apply ltb_false_iff in Hd. rewrite Hd.
  unfold Spec.axis, Spec.t_plus.
  rewrite vertical_d, vertical_a, vertical_b, vertical_discriminant.
  rewrite sqrt_mult by lra.
  replace 4 with (2 * 2) at 1 by ring. rewrite sqrt_square by lra.
  f_equal. apply vec2_eq; cbn; field.
Qed.

Lemma vertical_invalid :
  L ^ 2 < (Ox - r * cos alpha) ^ 2 ->
  Piston.calculate e = Piston.invalid.
Proof.
  intro H. rewrite calculate_unfold, vertical_a, Rmult_1_r, is_zero_2.
  assert (Hd : Spec.discriminant e < 0) by (rewrite vertical_discriminant; lra).
  apply ltb_true_iff in Hd. rewrite Hd. reflexivity.
Qed.

End Vertical.

(** The axis map is injective once the direction has unit length. *)
Lemma axis_injective (e : Piston.engine) (t1 t2 : R) :
  Spec.a e = 1 -> Spec.axis e t1 = Spec.axis e t2 -> t1 = t2.
Proof.
  unfold Spec.a. intros Ha H.
  pose proof (f_equal glm.x H) as Hx. pose proof (f_equal glm.y H) as Hy.
  unfold Spec.axis, glm.add, glm.scale in Hx, Hy. cbn [glm.x glm.y] in Hx, Hy.
  set (dx := glm.x (Spec.d e)) in *. set (dy := glm.y (Spec.d e)) in *.
  assert (Hx' : dx * (t1 - t2) = 0) by lra.
  assert (Hy' : dy * (t1 - t2) = 0) by lra.
  assert (Hsq : (t1 - t2) * (t1 - t2) = 0).
  { transitivity ((dx ^ 2 + dy ^ 2) * ((t1 - t2) * (t1 - t2))).
    - rewrite Ha. ring.
    - transitivity (dx * (t1 - t2) * (dx * (t1 - t2))
                    + dy * (t1 - t2) * (dy * (t1 - t2))); [ ring | ].
      rewrite Hx', Hy'. ring. }
  apply Rmult_integral in Hsq. lra.
Qed.

Lemma sqrt_7500_bounds : 8660 / 100 < sqrt 7500 < 8661 / 100.
Proof.
  assert (H : 0 <= 7500) by lra.
  pose proof (sqrt_sqrt 7500 H) as Hs. pose proof (sqrt_pos 7500) as Hp.
  split.
  - destruct (Rlt_dec (8660 / 100) (sqrt 7500)) as [G | G]; [ exact G | ].
    exfalso. nra.
  - destruct (Rlt_dec (sqrt 7500) (8661 / 100)) as [G | G]; [ exact G | ].
    exfalso. nra.
Qed.

Lemma scenario_at_0 :
  Piston.calculate (scenario 0) = Piston.valid (Vec2 0 (sqrt 7500)).
Proof.
  unfold scenario. rewrite vertical_valid; [ | lra | rewrite cos_0; lra ].
  rewrite cos_0, sin_0. f_equal. apply vec2_eq; cbn; [ reflexivity | ].
  rewrite Rmult_0_r, Rplus_0_l. f_equal. lra.
Qed.

Lemma scenario_at_PI :
  Piston.calculate (scenario PI) = Piston.valid (Vec2 0 (sqrt 7500)).
Proof.
  unfold scenario. rewrite vertical_valid; [ | lra | rewrite cos_PI; lra ].
  rewrite cos_PI, sin_PI. f_equal. apply vec2_eq; cbn; [ reflexivity | ].
  rewrite Rmult_0_r, Rplus_0_l. f_equal. lra.
Qed.

(** ** Binary32: constants *)



(** ** Binary32: the sign of a rounded result *)






(** ** Binary32: arithmetic with zeros *)












(** ** Binary32: the solver *)

Lemma f32_calculate_unfold (m : F32.libm) (e : F32.Piston.engine) :
  F32.Piston.calculate m e
  = if F32.is_zero (F32.Piston.divisor e) then F32.Piston.invalid
    else if F32.ltb (F32.Piston.discriminant m e) (F32.of_int 0)
         then F32.Piston.invalid
         else F32.Piston.valid
                (F32.vadd (F32.Piston.origin (F32.Piston.cylinder_ e))
                   (F32.vscale
                      (F32.normalize (F32.Piston.direction (F32.Piston.cylinder_ e)))
                      (F32.Piston.t m e))).
Proof. reflexivity. Qed.


(** The [piston] member after [calculate_positions], in terms of the
    coefficients [b] and [c] of the stateful revision; [a] and [divisor]
    are those of [calculate]. *)
Lemma f32_calculate_positions_unfold (m : F32.libm) (this : F32.Stateful.engine) :
  F32.Stateful.piston_ (F32.Stateful.calculate_positions m this)
  = if F32.is_zero (F32.Piston.divisor (F32.Stateful.snapshot this))
    then F32.Stateful.Piston (F32.Stateful.position (F32.Stateful.piston_ this)) false
    else if F32.ltb
              (F32.sub (F32.square (F32.Stateful.b m this))
                 (F32.mul (F32.mul (F32.of_int 4)
                             (F32.Piston.a (F32.Stateful.snapshot this)))
                    (F32.Stateful.c m this)))
              (F32.of_int 0)
    then F32.Stateful.Piston (F32.Stateful.position (F32.Stateful.piston_ this)) false
    else F32.Stateful.Piston
           (F32.vadd (F32.Stateful.origin (F32.Stateful.cylinder_ this))
              (F32.vscale
                 (F32.normalize (F32.Stateful.direction (F32.Stateful.cylinder_ this)))
                 (F32.div
                    (F32.add (F32.neg (F32.Stateful.b m this))
                       (F32.sqrt
                          (F32.sub (F32.square (F32.Stateful.b m this))
                             (F32.mul (F32.mul (F32.of_int 4)
                                         (F32.Piston.a (F32.Stateful.snapshot this)))
                                (F32.Stateful.c m this)))))
                    (F32.Piston.divisor (F32.Stateful.snapshot this)))))
           true.
Proof.
  destruct this as [[r pin alpha] [O D] [pos ex] L].
  unfold F32.Stateful.calculate_positions.
  cbn [F32.Stateful.set_crankpin_position F32.Stateful.crankshaft_
       F32.Stateful.cylinder_ F32.Stateful.piston_
       F32.Stateful.connecting_rod_length F32.Stateful.crank_radius
       F32.Stateful.angle F32.Stateful.origin F32.Stateful.direction
       F32.Stateful.position F32.Stateful.exists_].
  unfold F32.Piston.divisor, F32.Piston.a, F32.Stateful.b, F32.Stateful.c.
  cbn [F32.Stateful.snapshot F32.Piston.cylinder_ F32.Piston.direction
       F32.Stateful.crankshaft_ F32.Stateful.cylinder_ F32.Stateful.piston_
       F32.Stateful.connecting_rod_length F32.Stateful.crank_radius
       F32.Stateful.angle F32.Stateful.origin F32.Stateful.direction].
  match goal with |- context [ if ?c then _ else _ ] => destruct c end;
    [ reflexivity | ].
  match goal with |- context [ if ?c then _ else _ ] => destruct c end;
    reflexivity.
Qed.


(** *** A crank of radius zero

    With [r = 0] every product with the cosine or the sine of the angle is
    a zero, of one sign or the other, or NaN when the other factor is not
    finite; the angle can only change the sign of a zero [b], which the
    rest of the computation does not see. *)

Section ZeroCrank.

Variables (m : F32.libm) (L : F32.float) (O D : F32.vec2) (alpha alpha' : F32.float).

Hypothesis cos_finite : F32.is_finite (F32.cos m alpha) = true.
Hypothesis sin_finite : F32.is_finite (F32.sin m alpha) = true.
Hypothesis cos_finite' : F32.is_finite (F32.cos m alpha') = true.
Hypothesis sin_finite' : F32.is_finite (F32.sin m alpha') = true.

Local Abbreviation e := (F32.Piston.engine_with (F32.of_int 0) L O D alpha).
Local Abbreviation e' := (F32.Piston.engine_with (F32.of_int 0) L O D alpha').



End ZeroCrank.

(** *** NaN *)

Lemma mul_nan_l (a : F32.float) : F32.mul S754_nan a = S754_nan.
Proof. reflexivity. Qed.

Lemma mul_nan_r (a : F32.float) : F32.mul a S754_nan = S754_nan.
Proof. destruct a; reflexivity. Qed.

Lemma add_nan_r (a : F32.float) : F32.add a S754_nan = S754_nan.
Proof. destruct a; reflexivity. Qed.

Lemma sub_nan_l (a : F32.float) : F32.sub S754_nan a = S754_nan.
Proof. reflexivity. Qed.

(** [normalize] divides by [sqrt 0 = 0]: [1 / 0] is an infinity and
    [0 * inf] is NaN. *)
Lemma normalize_zero_is_nan (s1 s2 : bool) :
  F32.normalize (F32.Vec2 (S754_zero s1) (S754_zero s2))
  = F32.Vec2 S754_nan S754_nan.
Proof. destruct s1, s2; vm_compute; reflexivity. Qed.

(** * The claims *)

(** ** C1: a valid position is on the axis, one rod length from the crankpin *)




(** ** C2: the coefficients and the choice of the root *)

(** C2.  [calculate] is the quadratic formula with the coefficients
    [a = dx^2 + dy^2], [b = 2 (Ox dx + Oy dy - r dx cos alpha - r dy sin alpha)],
    [c = Ox^2 + Oy^2 - 2 r Ox cos alpha - 2 r Oy sin alpha - L^2 + r^2] for
    [d = normalize(D)]: unless it rejects, it returns
    [valid (O + t * d)] for [t = (- b + sqrt discriminant) / (2 a)].  That
    [t] is a root of [a t^2 + b t + c], it is the larger of the two roots,
    and with a positive discriminant the result is not the point of the
    other branch. *)
Theorem calculate_selects_plus_root (e : Piston.engine) :
  Piston.calculate e
  = (if is_zero (2 * Spec.a e) then Piston.invalid
     else if ltb (Spec.discriminant e) 0 then Piston.invalid
     else Piston.valid
            (glm.add (Spec.O e)
               (glm.scale (Spec.d e)
                  ((- Spec.b e + sqrt (Spec.discriminant e)) / (2 * Spec.a e)))))
  /\ (Piston.is_valid (Piston.calculate e) = true ->
      Spec.a e * Spec.t_plus e ^ 2 + Spec.b e * Spec.t_plus e + Spec.c e = 0
      /\ Spec.a e * Spec.t_minus e ^ 2 + Spec.b e * Spec.t_minus e + Spec.c e = 0
      /\ Spec.t_minus e <= Spec.t_plus e
      /\ (0 < Spec.discriminant e ->
          Piston.value (Piston.calculate e) <> Spec.axis e (Spec.t_minus e))).
Proof.
  split; [ apply calculate_unfold | ].
  intro Hvalid. pose proof (valid_a e Hvalid) as Ha.
  pose proof Hvalid as Hd. apply is_valid_true_iff in Hd as [_ Hd].
  assert (Ha0 : Spec.a e <> 0) by (rewrite Ha; lra).
  repeat split.
  - apply t_plus_root; assumption.
  - apply t_minus_root; assumption.
  - apply t_minus_le_t_plus. rewrite Ha. lra.
  - intros Hpos Heq. rewrite (calculate_valid e Hvalid) in Heq.
    cbn [Piston.value Piston.valid] in Heq.
    apply (axis_injective e _ _ Ha) in Heq.
    pose proof (sqrt_lt_R0 _ Hpos) as Hs.
    unfold Spec.t_plus, Spec.t_minus in Heq. rewrite Ha in Heq. lra.
Qed.

Lemma calculate_selects_plus_root_witness :
  Spec.a (scenario 0) * Spec.t_plus (scenario 0) ^ 2
  + Spec.b (scenario 0) * Spec.t_plus (scenario 0) + Spec.c (scenario 0) = 0
  /\ Spec.a (scenario 0) * Spec.t_minus (scenario 0) ^ 2
     + Spec.b (scenario 0) * Spec.t_minus (scenario 0) + Spec.c (scenario 0) = 0
  /\ Spec.t_minus (scenario 0) <= Spec.t_plus (scenario 0)
  /\ (0 < Spec.discriminant (scenario 0) ->
      Piston.value (Piston.calculate (scenario 0))
      <> Spec.axis (scenario 0) (Spec.t_minus (scenario 0))).
Proof.
  apply (proj2 (calculate_selects_plus_root (scenario 0))).
  rewrite scenario_at_0. reflexivity.
Defined.

(** ** C5: only the direction of [D] matters *)




(** ** C8: the scenario at angles [0] and [PI] *)

(** C8.  With [r = 50], [L = 100], [O = (0,0)], [D = (0,20)]: at
    [alpha = 0] the crankpin is [(50, 0)] and [calculate] returns the valid
    position [(0, y)] with [y = sqrt (100^2 - 50^2)], which is at distance
    [100] from the crankpin and lies between [86.60] and [86.61]; at
    [alpha = PI] the crankpin is [(-50, 0)] and the result is the same. *)
Theorem scenario_positions :
  Piston.calculate (scenario 0) = Piston.valid (Vec2 0 (sqrt (100 ^ 2 - 50 ^ 2)))
  /\ Piston.calculate (scenario PI) = Piston.valid (Vec2 0 (sqrt (100 ^ 2 - 50 ^ 2)))
  /\ Spec.crankpin (scenario 0) = Vec2 50 0
  /\ Spec.crankpin (scenario PI) = Vec2 (- 50) 0
  /\ distance (Vec2 0 (sqrt (100 ^ 2 - 50 ^ 2))) (Vec2 50 0) = 100
  /\ distance (Vec2 0 (sqrt (100 ^ 2 - 50 ^ 2))) (Vec2 (- 50) 0) = 100
  /\ 8660 / 100 < sqrt (100 ^ 2 - 50 ^ 2) < 8661 / 100.
Proof.
  replace (100 ^ 2 - 50 ^ 2) with 7500 by lra.
  assert (Hs : sqrt 7500 * sqrt 7500 = 7500) by (apply sqrt_sqrt; lra).
  repeat split.
  - apply scenario_at_0.
  - apply scenario_at_PI.
  - unfold Spec.crankpin, scenario, Spec.alpha, Spec.r; cbn.
    rewrite cos_0, sin_0. apply vec2_eq; cbn; ring.
  - unfold Spec.crankpin, scenario, Spec.alpha, Spec.r; cbn.
    rewrite cos_PI, sin_PI. apply vec2_eq; cbn; ring.
  - unfold distance, square; cbn [glm.x glm.y].
    replace ((0 - 50) * (0 - 50) + (sqrt 7500 - 0) * (sqrt 7500 - 0))
      with (100 * 100) by lra.
    apply sqrt_square. lra.
  - unfold distance, square; cbn [glm.x glm.y].
    replace ((0 - - 50) * (0 - - 50) + (sqrt 7500 - 0) * (sqrt 7500 - 0))
      with (100 * 100) by lra.
    apply sqrt_square. lra.
  - apply sqrt_7500_bounds.
  - apply sqrt_7500_bounds.
Qed.

(** ** C9: a rod too short *)

(** C9.  With [r = 50], [L = 10], [O = (0,0)], [D = (0,1)] and
    [alpha = 0], [calculate] returns the invalid result: the discriminant
    is negative. *)
Theorem short_rod_is_invalid :
  Piston.calculate (engine_with 50 10 (Vec2 0 0) (Vec2 0 1) 0) = Piston.invalid
  /\ Spec.discriminant (engine_with 50 10 (Vec2 0 0) (Vec2 0 1) 0) < 0
  /\ is_zero (2 * Spec.a (engine_with 50 10 (Vec2 0 0) (Vec2 0 1) 0)) = false.
Proof.
  repeat split.
  - apply vertical_invalid; [ lra | rewrite cos_0; lra ].
  - rewrite vertical_discriminant by lra. rewrite cos_0. lra.
  - rewrite vertical_a by lra. rewrite Rmult_1_r. apply is_zero_2.
Qed.

(** ** C3: the two rejections *)


(** ** C4: the stateful revision against the pure solver *)




(** ** C7: a crank of radius zero *)




(** ** C10: a rejected call keeps the old position *)



(** * Further properties of the program *)

(** ** The camera *)

Lemma vector2_eq (p q : raylib.Vector2) :
  raylib.x p = raylib.x q -> raylib.y p = raylib.y q -> p = q.
Proof. destruct p, q; simpl; intros -> ->; reflexivity. Qed.

Lemma initial_camera_shape : camera_shape view.initial 1 400 300.
Proof.
  unfold camera_shape, view.initial, glm.translate, glm.scale_matrix,
    glm.mat3_diagonal, glm.add3, glm.scale3; cbn [view.view_ glm.c0 glm.c1 glm.c2
    glm.x3 glm.y3 glm.z3 glm.x glm.y].
  change (IZR (Z.quot WINDOW_WIDTH 2)) with 400.
  change (IZR (Z.quot (- WINDOW_HEIGHT) 2)) with (- 300).
  f_equal; f_equal; ring.
Qed.

(** X4.  The initial camera shows the world point [(x, y)] at the display
    point [(x + 400, 300 - y)]: the world origin is the centre of the
    window and the vertical axis points up. *)
Theorem initial_camera_centres_origin (p : vec2) :
  view.transform_vec2 view.initial p
  = raylib.MkVector2 (glm.x p + 400) (300 - glm.y p).
Proof.
  unfold view.transform_vec2. rewrite initial_camera_shape.
  apply vector2_eq; cbn; ring.
Qed.

(** ** More on the stateful revision *)

Lemma snapshot_calculate_positions (this : Stateful.engine) :
  Stateful.snapshot (Stateful.calculate_positions this) = Stateful.snapshot this.
Proof.
  rewrite calculate_positions_unfold.
  destruct (is_zero _); [ reflexivity | ].
  destruct (ltb _ _); reflexivity.
Qed.

(** X10.  [calculate_positions] is idempotent: a second call on unchanged
    parameters leaves the object as the first call left it. *)
Theorem calculate_positions_idempotent (this : Stateful.engine) :
  Stateful.calculate_positions (Stateful.calculate_positions this)
  = Stateful.calculate_positions this.
Proof.
  rewrite (calculate_positions_unfold (Stateful.calculate_positions this)).
  rewrite snapshot_calculate_positions.
  rewrite calculate_positions_unfold.
  destruct this as [[r cp al] [O D] [pos ex] L].
  destruct (is_zero _); [ reflexivity | ].
  destruct (ltb _ _); reflexivity.
Qed.

(** ** The cylinder guides *)

Ltac case_guides :=
  repeat (match goal with
          | |- context [ IsMouseButtonDown_LEFT ?i ] =>
              destruct (IsMouseButtonDown_LEFT i)
          | |- context [ ltb ?a ?b ] => destruct (ltb a b)
          end; cbn).

(** X13.  One call of [draw_cylinder_guides] (of [piston.cpp]): a handle
    that is active stays active and no handle becomes active while the
    button is up; with no handle active afterwards the engine is untouched;
    with the position handle active the origin is the mouse position and
    the direction is unchanged; with the direction handle active the
    origin is unchanged and the direction is [mouse - origin], as the
    source assigns it.  Crank and rod length are never written. *)
Theorem guides_move_the_active_handle_only
    (iface : interface.interface) (v : view.view) (params : Piston.engine)
    (inp : input) :
  let mouse := view.inverse_transform_Vector2 v (GetMousePosition inp) in
  let iface' := fst (fst (PistonApp.draw_cylinder_guides iface v params inp)) in
  let params' := snd (fst (PistonApp.draw_cylinder_guides iface v params inp)) in
  (interface.active_component iface <> interface.NONE ->
   interface.active_component iface' = interface.active_component iface)
  /\ (IsMouseButtonDown_LEFT inp = false ->
      interface.active_component iface' = interface.active_component iface)
  /\ (interface.active_component iface' = interface.NONE -> params' = params)
  /\ (interface.active_component iface' = interface.CYLINDER_GUIDE_POSITION ->
      Piston.origin (Piston.cylinder_ params') = mouse
      /\ Piston.direction (Piston.cylinder_ params')
         = Piston.direction (Piston.cylinder_ params))
  /\ (interface.active_component iface' = interface.CYLINDER_GUIDE_DIRECTION ->
      Piston.origin (Piston.cylinder_ params')
      = Piston.origin (Piston.cylinder_ params)
      /\ Piston.direction (Piston.cylinder_ params')
         = glm.sub mouse (Piston.origin (Piston.cylinder_ params)))
  /\ Piston.crank params' = Piston.crank params
  /\ Piston.connecting_rod_length params' = Piston.connecting_rod_length params
  /\ interface.show_cylinder_guides iface' = interface.show_cylinder_guides iface.
Proof.
  destruct iface as [show act]. destruct params as [cr [O D] L].
  cbv zeta. unfold PistonApp.draw_cylinder_guides.
  cbn [Piston.origin Piston.direction Piston.cylinder_ Piston.crank
       Piston.connecting_rod_length interface.active_component
       interface.show_cylinder_guides].
  set (mouse := view.inverse_transform_Vector2 v (GetMousePosition inp)).
  destruct act; cbn; case_guides;
    repeat split; intros; try discriminate; try congruence; try reflexivity.
Qed.

Lemma guides_agree (iface : interface.interface) (v : view.view)
    (this : Stateful.engine) (inp : input) :
  fst (fst (StatefulApp.draw_cylinder_guides iface v this inp))
  = fst (fst (PistonApp.draw_cylinder_guides iface v (Stateful.snapshot this) inp))
  /\ Stateful.snapshot (snd (fst (StatefulApp.draw_cylinder_guides iface v this inp)))
     = snd (fst (PistonApp.draw_cylinder_guides iface v (Stateful.snapshot this) inp))
  /\ snd (StatefulApp.draw_cylinder_guides iface v this inp)
     = snd (PistonApp.draw_cylinder_guides iface v (Stateful.snapshot this) inp).
Proof.
  destruct iface as [show act]. destruct this as [[r cp al] [O D] [pos ex] L].
  unfold StatefulApp.draw_cylinder_guides, PistonApp.draw_cylinder_guides,
    interface.set_active, interface.is_active, Stateful.snapshot.
  cbn [Stateful.origin Stateful.direction Stateful.cylinder_ Stateful.crankshaft_
       Stateful.piston_ Stateful.connecting_rod_length Stateful.crank_radius
       Stateful.angle Piston.origin Piston.direction Piston.cylinder_ Piston.crank
       Piston.connecting_rod_length interface.active_component
       interface.show_cylinder_guides].
  set (mouse := view.inverse_transform_Vector2 v (GetMousePosition inp)).
  destruct act; cbn; case_guides; repeat split; reflexivity.
Qed.

Lemma crankpin_after_raw (this : Stateful.engine) :
  Stateful.crankpin_position
    (Stateful.crankshaft_ (Stateful.calculate_positions this))
  = Vec2 (cos (Stateful.angle (Stateful.crankshaft_ this))
          * Stateful.crank_radius (Stateful.crankshaft_ this))
         (sin (Stateful.angle (Stateful.crankshaft_ this))
          * Stateful.crank_radius (Stateful.crankshaft_ this)).
Proof.
  rewrite calculate_positions_unfold.
  destruct (is_zero _); [ reflexivity | ].
  destruct (ltb _ _); reflexivity.
Qed.

Lemma frames_agree (inp : input) (st : StatefulApp.state) :
  project (fst (StatefulApp.frame inp st)) = fst (PistonApp.frame inp (project st))
  /\ snd (StatefulApp.frame inp st) = snd (PistonApp.frame inp (project st)).
Proof.
  destruct st as [e iface cam].
  unfold StatefulApp.frame, PistonApp.frame, project.
  cbn [StatefulApp.engine_ StatefulApp.interface_ StatefulApp.camera_
       PistonApp.engine_ PistonApp.interface_ PistonApp.camera_].
  set (delta := GetFrameTime inp / (16 / 1000)).
  set (v := camera_view cam).
  set (e1 := StatefulApp.advance_angle e delta).
  change (PistonApp.advance_angle (Stateful.snapshot e) delta)
    with (Stateful.snapshot e1).
  set (e2 := Stateful.calculate_positions e1).
  pose proof (exists_is_valid e1) as Hex. fold e2 in Hex.
  pose proof (position_after e1) as Hpos. fold e2 in Hpos.
  pose proof (crankpin_after_raw e1) as Hcp. fold e2 in Hcp.
  pose proof (snapshot_calculate_positions e1) as Hsnap. fold e2 in Hsnap.
  assert (Hcrank : StatefulApp.draw_crankshaft v e2
                   = PistonApp.draw_crankshaft v (Stateful.snapshot e1)).
  { unfold StatefulApp.draw_crankshaft, PistonApp.draw_crankshaft.
    rewrite Hcp. reflexivity. }
  rewrite Hcrank, Hex.
  pose proof (guides_agree iface v e2 inp) as (Hg1 & Hg2 & Hg3).
  rewrite Hsnap in Hg1, Hg2, Hg3.
  destruct (Piston.is_valid (Piston.calculate (Stateful.snapshot e1))) eqn:Hvalid.
  - assert (Hrod : StatefulApp.draw_connecting_rod v e2
                   = PistonApp.draw_connecting_rod v (Stateful.snapshot e1)
                       (Piston.value (Piston.calculate (Stateful.snapshot e1)))).
    { unfold StatefulApp.draw_connecting_rod, PistonApp.draw_connecting_rod.
      rewrite Hcp, Hpos. reflexivity. }
    assert (Hpis : StatefulApp.draw_piston v e2
                   = PistonApp.draw_piston v (Stateful.snapshot e1)
                       (Piston.value (Piston.calculate (Stateful.snapshot e1)))).
    { unfold StatefulApp.draw_piston, PistonApp.draw_piston.
      rewrite Hpos.
      rewrite <- Hsnap. reflexivity. }
    rewrite Hrod, Hpis.
    destruct (interface.show_cylinder_guides iface).
    + destruct (StatefulApp.draw_cylinder_guides iface v e2 inp) as [[i2 p2] c2].
      destruct (PistonApp.draw_cylinder_guides iface v (Stateful.snapshot e1) inp)
        as [[i1 p1] c1].
      cbn in Hg1, Hg2, Hg3. subst. cbn. split; reflexivity.
    + cbn. rewrite Hsnap. split; reflexivity.
  - destruct (interface.show_cylinder_guides iface).
    + destruct (StatefulApp.draw_cylinder_guides iface v e2 inp) as [[i2 p2] c2].
      destruct (PistonApp.draw_cylinder_guides iface v (Stateful.snapshot e1) inp)
        as [[i1 p1] c1].
      cbn in Hg1, Hg2, Hg3. subst. cbn. split; reflexivity.
    + cbn. rewrite Hsnap. split; reflexivity.
Qed.

(** What one call of [draw_cylinder_guides] leaves alone. *)
Lemma guides_frame (iface : interface.interface) (v : view.view)
    (params : Piston.engine) (inp : input) :
  let iface' := fst (fst (PistonApp.draw_cylinder_guides iface v params inp)) in
  let params' := snd (fst (PistonApp.draw_cylinder_guides iface v params inp)) in
  Piston.crank params' = Piston.crank params
  /\ Piston.connecting_rod_length params' = Piston.connecting_rod_length params
  /\ (interface.active_component iface <> interface.NONE ->
      interface.active_component iface' = interface.active_component iface
      /\ (interface.active_component iface = interface.CYLINDER_GUIDE_POSITION ->
          Piston.direction (Piston.cylinder_ params')
          = Piston.direction (Piston.cylinder_ params))
      /\ (interface.active_component iface = interface.CYLINDER_GUIDE_DIRECTION ->
          Piston.origin (Piston.cylinder_ params')
          = Piston.origin (Piston.cylinder_ params))).
Proof.
  destruct iface as [show act]. destruct params as [cr [O D] L].
  cbv zeta. unfold PistonApp.draw_cylinder_guides.
  cbn [Piston.origin Piston.direction Piston.cylinder_ Piston.crank
       Piston.connecting_rod_length interface.active_component
       interface.show_cylinder_guides].
  set (mouse := view.inverse_transform_Vector2 v (GetMousePosition inp)).
  destruct act; cbn; case_guides;
    repeat split; intros; try discriminate; try congruence; reflexivity.
Qed.

(** One frame, as far as the engine and the interface go. *)
Lemma frame_engine (inp : input) (st : PistonApp.state) :
  let st' := fst (PistonApp.frame inp st) in
  Piston.crank (PistonApp.engine_ st')
  = Piston.Crankshaft
      (Piston.crank_radius (Piston.crank (PistonApp.engine_ st)))
      (Piston.angle (Piston.crank (PistonApp.engine_ st))
       + 5 / 100 * (GetFrameTime inp / (16 / 1000)))
  /\ Piston.connecting_rod_length (PistonApp.engine_ st')
     = Piston.connecting_rod_length (PistonApp.engine_ st)
  /\ (interface.active_component (PistonApp.interface_ st) <> interface.NONE ->
      IsMouseButtonUp_LEFT inp = false ->
      interface.active_component (PistonApp.interface_ st')
      = interface.active_component (PistonApp.interface_ st)
      /\ (interface.active_component (PistonApp.interface_ st)
          = interface.CYLINDER_GUIDE_POSITION ->
          Piston.direction (Piston.cylinder_ (PistonApp.engine_ st'))
          = Piston.direction (Piston.cylinder_ (PistonApp.engine_ st)))
      /\ (interface.active_component (PistonApp.interface_ st)
          = interface.CYLINDER_GUIDE_DIRECTION ->
          Piston.origin (Piston.cylinder_ (PistonApp.engine_ st'))
          = Piston.origin (Piston.cylinder_ (PistonApp.engine_ st)))).
Proof.
  destruct st as [e iface cam]. cbv zeta. unfold PistonApp.frame.
  cbn [PistonApp.engine_ PistonApp.interface_ PistonApp.camera_].
  set (delta := GetFrameTime inp / (16 / 1000)).
  set (e1 := PistonApp.advance_angle e delta).
  set (calls := if Piston.is_valid (Piston.calculate e1) then _ else _).
  pose proof (guides_frame iface (camera_view cam) e1 inp) as Hg.
  cbv zeta in Hg.
  destruct (interface.show_cylinder_guides iface).
  - destruct (PistonApp.draw_cylinder_guides iface (camera_view cam) e1 inp)
      as [[i1 p1] c1].
    cbn [fst snd] in Hg. destruct Hg as (Hcr & HL & Hact).
    cbn [fst snd PistonApp.engine_ PistonApp.interface_].
    split; [ rewrite Hcr; reflexivity | split; [ rewrite HL; reflexivity | ] ].
    intros Hne Hup. rewrite Hup. destruct (Hact Hne) as (Ha & Hp & Hd).
    split; [ exact Ha | split; intro Hc ].
    + rewrite (Hp Hc). reflexivity.
    + rewrite (Hd Hc). reflexivity.
  - cbn [fst snd PistonApp.engine_ PistonApp.interface_].
    split; [ reflexivity | split; [ reflexivity | ] ].
    intros Hne Hup. rewrite Hup. repeat split; reflexivity.
Qed.

(** X15.  Over any run of frames no frame writes the crank radius or the
    rod length: after the run they have the values they had before it,
    whatever the inputs of the frames were. *)
Theorem run_keeps_radius_and_rod_length (inps : list input) (st : PistonApp.state) :
  Piston.crank_radius (Piston.crank (PistonApp.engine_ (fst (PistonApp.run inps st))))
  = Piston.crank_radius (Piston.crank (PistonApp.engine_ st))
  /\ Piston.connecting_rod_length (PistonApp.engine_ (fst (PistonApp.run inps st)))
     = Piston.connecting_rod_length (PistonApp.engine_ st).
Proof.
  revert st. induction inps as [ | inp rest IH ]; intro st.
  - cbn [PistonApp.run fst]. split; reflexivity.
  - cbn [PistonApp.run].
    pose proof (frame_engine inp st) as Hf. cbv zeta in Hf.
    destruct (PistonApp.frame inp st) as [st1 calls1].
    cbn [fst] in Hf. destruct Hf as (Hcr & HL & _).
    specialize (IH st1).
    destruct (PistonApp.run rest st1) as [st2 calls2].
    cbn [fst] in *. destruct IH as (IHr & IHL).
    rewrite IHr, IHL, Hcr, HL. cbn [Piston.crank_radius].
    split; reflexivity.
Qed.

(** X16.  While the button is not released, a handle that is active stays
    the active one through every frame; as long as the position handle is
    held the direction keeps its value, and as long as the direction handle
    is held the origin keeps its value. *)
Theorem held_handle_stays_active (inps : list input) (st : PistonApp.state) :
  Forall (fun inp => IsMouseButtonUp_LEFT inp = false) inps ->
  interface.active_component (PistonApp.interface_ st) <> interface.NONE ->
  interface.active_component (PistonApp.interface_ (fst (PistonApp.run inps st)))
  = interface.active_component (PistonApp.interface_ st)
  /\ (interface.active_component (PistonApp.interface_ st)
      = interface.CYLINDER_GUIDE_POSITION ->
      Piston.direction (Piston.cylinder_ (PistonApp.engine_ (fst (PistonApp.run inps st))))
      = Piston.direction (Piston.cylinder_ (PistonApp.engine_ st)))
  /\ (interface.active_component (PistonApp.interface_ st)
      = interface.CYLINDER_GUIDE_DIRECTION ->
      Piston.origin (Piston.cylinder_ (PistonApp.engine_ (fst (PistonApp.run inps st))))
      = Piston.origin (Piston.cylinder_ (PistonApp.engine_ st))).
Proof.
  revert st. induction inps as [ | inp rest IH ]; intros st Hup Hact.
  - cbn [PistonApp.run fst]. repeat split.
  - inversion Hup as [ | ? ? Hup1 Hrest ]; subst.
    cbn [PistonApp.run].
    pose proof (frame_engine inp st) as Hf. cbv zeta in Hf.
    destruct (PistonApp.frame inp st) as [st1 calls1].
    cbn [fst] in Hf. destruct Hf as (_ & _ & Hkeep).
    destruct (Hkeep Hact Hup1) as (Ha & Hp & Hd).
    assert (Hact1 : interface.active_component (PistonApp.interface_ st1)
                    <> interface.NONE) by (rewrite Ha; exact Hact).
    specialize (IH st1 Hrest Hact1).
    destruct (PistonApp.run rest st1) as [st2 calls2].
    cbn [fst] in *. destruct IH as (IHa & IHp & IHd).
    rewrite Ha in IHa, IHp, IHd.
    split; [ exact IHa | split; intro Hc ].
    + rewrite (IHp Hc). exact (Hp Hc).
    + rewrite (IHd Hc). exact (Hd Hc).
Qed.

Lemma held_handle_stays_active_witness :
  interface.active_component
    (PistonApp.interface_
       (fst (PistonApp.run [button_down_at (raylib.MkVector2 410 300);
                            button_down_at (raylib.MkVector2 420 290)] dragging)))
  = interface.active_component (PistonApp.interface_ dragging)
  /\ (interface.active_component (PistonApp.interface_ dragging)
      = interface.CYLINDER_GUIDE_POSITION ->
      Piston.direction
        (Piston.cylinder_
           (PistonApp.engine_
              (fst (PistonApp.run [button_down_at (raylib.MkVector2 410 300);
                                   button_down_at (raylib.MkVector2 420 290)] dragging))))
      = Piston.direction (Piston.cylinder_ (PistonApp.engine_ dragging)))
  /\ (interface.active_component (PistonApp.interface_ dragging)
      = interface.CYLINDER_GUIDE_DIRECTION ->
      Piston.origin
        (Piston.cylinder_
           (PistonApp.engine_
              (fst (PistonApp.run [button_down_at (raylib.MkVector2 410 300);
                                   button_down_at (raylib.MkVector2 420 290)] dragging))))
      = Piston.origin (Piston.cylinder_ (PistonApp.engine_ dragging))).
Proof.
  apply (held_handle_stays_active
           [button_down_at (raylib.MkVector2 410 300);
            button_down_at (raylib.MkVector2 420 290)] dragging).
  - repeat constructor.
  - cbn. discriminate.
Defined.

(** ** The coordinate grid *)

Lemma for_ticks_step (i : Z) (body : Z -> list raylib.call) :
  (i < 1000)%Z -> for_ticks i body = body i ++ for_ticks (i + 10) body.
Proof.
  intro H. rewrite for_ticks_equation_1.
  destruct (Z_lt_dec i 1000); [ reflexivity | lia ].
Qed.

Lemma for_ticks_done (i : Z) (body : Z -> list raylib.call) :
  (1000 <= i)%Z -> for_ticks i body = [].
Proof.
  intro H. rewrite for_ticks_equation_1.
  destruct (Z_lt_dec i 1000); [ lia | reflexivity ].
Qed.

(** The loop runs [body] at [i], [i + 10], ... below [1000]. *)
Lemma for_ticks_spec (n : nat) :
  forall (i : Z) (body : Z -> list raylib.call),
    ticks_left i = n ->
    (forall c, In c (for_ticks i body)
               <-> exists j : Z, (i <= j < 1000)%Z /\ ((j - i) mod 10 = 0)%Z
                                 /\ In c (body j))
    /\ ((forall j, List.length (body j) = 1%nat) ->
        List.length (for_ticks i body) = Z.to_nat ((1000 - i + 9) / 10)).
Proof.
  induction n as [n IH] using lt_wf_ind. intros i body Hn.
  destruct (Z_lt_dec i 1000) as [Hlt | Hge].
  - rewrite (for_ticks_step i body Hlt).
    assert (Hm : (ticks_left (i + 10) < n)%nat) by (unfold ticks_left in *; lia).
    destruct (IH _ Hm (i + 10)%Z body eq_refl) as [IHin IHlen].
    split.
    + intro c. rewrite in_app_iff, IHin. split.
      * intros [Hc | (j & Hj & Hmod & Hc)].
        -- exists i. repeat split; try lia.
           ++ rewrite Z.sub_diag. reflexivity.
           ++ exact Hc.
        -- exists j. repeat split; try lia.
           ++ replace (j - i)%Z with (j - (i + 10) + 1 * 10)%Z by lia.
              rewrite Z.mod_add by lia. exact Hmod.
           ++ exact Hc.
      * intros (j & Hj & Hmod & Hc).
        destruct (Z.eq_dec j i) as [-> | Hne]; [ left; exact Hc | right ].
        exists j. repeat split; try lia.
        -- assert (Hd : (j - i = 10 * ((j - i) / 10))%Z)
             by (pose proof (Z.div_mod (j - i) 10); lia).
           lia.
        -- replace (j - (i + 10))%Z with ((j - i) + (- 1) * 10)%Z by lia.
           rewrite Z.mod_add by lia. exact Hmod.
        -- exact Hc.
    + intro Hbody. rewrite length_app, Hbody, (IHlen Hbody).
      replace (1000 - i + 9)%Z with ((1000 - (i + 10) + 9) + 1 * 10)%Z by lia.
      rewrite Z.div_add by lia.
      assert (0 <= (1000 - (i + 10) + 9) / 10)%Z by (apply Z.div_pos; lia).
      lia.
  - rewrite (for_ticks_done i body) by lia. split.
    + intro c. split; [ intros [] | intros (j & Hj & _); lia ].
    + intros _. cbn [List.length].
      assert (Hle : ((1000 - i + 9) / 10 <= 0)%Z).
      { apply Z.lt_succ_r. apply Z.div_lt_upper_bound; lia. }
      lia.
Qed.

(** X18.  [draw_coordinates] makes 402 calls: the two axes and, on each
    axis, one tick at every multiple of ten from [-1000] to [990]; there is
    no tick at [1000]. *)
Theorem draw_coordinates_ticks (v : view.view) :
  List.length (draw_coordinates v) = 402%nat
  /\ forall c : raylib.call,
      In c (draw_coordinates v)
      <-> (c = raylib.DrawLineV
                 (view.transform_vec2 v (Vec2 (- view.inverse_transform_float v 1000) 0))
                 (view.transform_vec2 v (Vec2 (view.inverse_transform_float v 1000) 0))
                 (raylib.MkColor 0 0 0 25)
           \/ c = raylib.DrawLineV
                    (view.transform_vec2 v (Vec2 0 (- view.inverse_transform_float v 1000)))
                    (view.transform_vec2 v (Vec2 0 (view.inverse_transform_float v 1000)))
                    (raylib.MkColor 0 0 0 25)
           \/ exists i : Z,
               (- 1000 <= i <= 990)%Z /\ (i mod 10 = 0)%Z
               /\ (c = raylib.DrawLineV (view.transform_vec2 v (Vec2 (IZR i) (- 5)))
                         (view.transform_vec2 v (Vec2 (IZR i) 5))
                         (raylib.MkColor 0 0 0 25)
                   \/ c = raylib.DrawLineV (view.transform_vec2 v (Vec2 (- 5) (IZR i)))
                            (view.transform_vec2 v (Vec2 5 (IZR i)))
                            (raylib.MkColor 0 0 0 25))).
Proof.
  unfold draw_coordinates; cbv zeta.
  set (xtick := fun i : Z => [ raylib.DrawLineV _ _ _ ]).
  set (ytick := fun i : Z => [ raylib.DrawLineV _ _ _ ]).
  destruct (for_ticks_spec _ (- 1000) xtick eq_refl) as [Hxin Hxlen].
  destruct (for_ticks_spec _ (- 1000) ytick eq_refl) as [Hyin Hylen].
  split.
  - rewrite !length_app, Hxlen, Hylen by reflexivity. reflexivity.
  - intro c. rewrite !in_app_iff, Hxin, Hyin. cbn [In]. split.
    + intros [[Hc | [Hc | []]] | [(j & Hj & Hmod & Hc) | (j & Hj & Hmod & Hc)]].
      * left. symmetry. exact Hc.
      * right. left. symmetry. exact Hc.
      * right. right. exists j. destruct Hc as [Hc | []].
        replace (j - - 1000)%Z with (j + 100 * 10)%Z in Hmod by lia.
        rewrite Z.mod_add in Hmod by lia.
        assert (Hd : (j = 10 * (j / 10) + j mod 10)%Z) by (apply Z.div_mod; lia).
        split; [ lia | split; [ exact Hmod | left; symmetry; exact Hc ] ].
      * right. right. exists j. destruct Hc as [Hc | []].
        replace (j - - 1000)%Z with (j + 100 * 10)%Z in Hmod by lia.
        rewrite Z.mod_add in Hmod by lia.
        assert (Hd : (j = 10 * (j / 10) + j mod 10)%Z) by (apply Z.div_mod; lia).
        split; [ lia | split; [ exact Hmod | right; symmetry; exact Hc ] ].
    + assert (Hshift : forall i : Z, (i mod 10 = 0 -> (i - - 1000) mod 10 = 0)%Z).
      { intros i Hmod. replace (i - - 1000)%Z with (i + 100 * 10)%Z by lia.
        rewrite Z.mod_add by lia. exact Hmod. }
      intros [Hc | [Hc | (i & Hi & Hmod & [Hc | Hc])]].
      * left. left. symmetry. exact Hc.
      * left. right. left. symmetry. exact Hc.
      * right. left. exists i.
        split; [ lia | split; [ exact (Hshift i Hmod) | left; symmetry; exact Hc ] ].
      * right. right. exists i.
        split; [ lia | split; [ exact (Hshift i Hmod) | left; symmetry; exact Hc ] ].
Qed.

(** ** What the interface flag is for *)

(** X19.  In the first revision, without [struct interface], a press
    inside the origin handle moves the origin to the mouse; when the test
    of the direction handle, as the code then computes it with the moved
    origin, [length(mouse - (mouse + direction)) < 20], holds as well, the
    same call also overwrites the direction, with [mouse - mouse]: both
    handles are grabbed at once.  In [piston.cpp] the same press, with no
    handle active before, makes the position handle the active one, moves
    the origin and leaves the direction as it was. *)
Theorem press_on_overlapping_handles
    (v : view.view) (old : Earliest.engine) (new : Piston.engine)
    (iface : interface.interface) (inp : input) :
  IsMouseButtonDown_LEFT inp = true ->
  ltb (glm.length (glm.sub (view.inverse_transform_Vector2 v (GetMousePosition inp))
                     (Earliest.origin (Earliest.cylinder_ old)))) 20 = true ->
  ltb (glm.length
         (glm.sub (view.inverse_transform_Vector2 v (GetMousePosition inp))
            (glm.add (view.inverse_transform_Vector2 v (GetMousePosition inp))
               (Earliest.direction (Earliest.cylinder_ old))))) 20 = true ->
  Piston.origin (Piston.cylinder_ new) = Earliest.origin (Earliest.cylinder_ old) ->
  Piston.direction (Piston.cylinder_ new)
  = Earliest.direction (Earliest.cylinder_ old) ->
  interface.active_component iface = interface.NONE ->
  (Earliest.origin (Earliest.cylinder_
                      (fst (Earliest.draw_cylinder_guides v old inp)))
   = view.inverse_transform_Vector2 v (GetMousePosition inp)
   /\ Earliest.direction (Earliest.cylinder_
                            (fst (Earliest.draw_cylinder_guides v old inp)))
      = glm.sub (view.inverse_transform_Vector2 v (GetMousePosition inp))
          (view.inverse_transform_Vector2 v (GetMousePosition inp)))
  /\ (interface.active_component
        (fst (fst (PistonApp.draw_cylinder_guides iface v new inp)))
      = interface.CYLINDER_GUIDE_POSITION
      /\ Piston.origin (Piston.cylinder_
                          (snd (fst (PistonApp.draw_cylinder_guides iface v new inp))))
         = view.inverse_transform_Vector2 v (GetMousePosition inp)
      /\ Piston.direction (Piston.cylinder_
                             (snd (fst (PistonApp.draw_cylinder_guides iface v new inp))))
         = Piston.direction (Piston.cylinder_ new)).
Proof.
  intros Hdown Horigin Hover HO HD Hnone.
  destruct old as [cr [O D] L]. destruct new as [cr' [O' D'] L'].
  destruct iface as [show act].
  cbn [Earliest.origin Earliest.direction Earliest.cylinder_ Piston.origin
       Piston.direction Piston.cylinder_ interface.active_component] in *.
  subst O' D' act.
  set (mouse := view.inverse_transform_Vector2 v (GetMousePosition inp)) in *.
  split.
  - unfold Earliest.draw_cylinder_guides.
    cbn [Earliest.origin Earliest.direction Earliest.cylinder_ Earliest.crank
         Earliest.connecting_rod_length].
    fold mouse. rewrite Horigin, Hdown. cbn iota beta. rewrite Hover.
    cbn [fst Earliest.origin Earliest.direction Earliest.cylinder_].
    split; reflexivity.
  - unfold PistonApp.draw_cylinder_guides.
    cbn [Piston.origin Piston.direction Piston.cylinder_ Piston.crank
         Piston.connecting_rod_length interface.active_component].
    fold mouse. rewrite Horigin, Hdown. cbn.
    repeat split; reflexivity.
Qed.

Lemma initial_camera_inverse (q : raylib.Vector2) :
  view.inverse_transform_Vector2 view.initial q
  = Vec2 (raylib.x q - 400) (300 - raylib.y q).
Proof.
  unfold view.inverse_transform_Vector2. rewrite initial_camera_shape.
  unfold glm.inverse, glm.determinant, glm.mul;
    cbn [glm.c0 glm.c1 glm.c2 glm.x3 glm.y3 glm.z3].
  apply vec2_eq; cbn [glm.x glm.y]; field.
Qed.

Lemma press_on_overlapping_handles_witness :
  (Earliest.origin
     (Earliest.cylinder_
        (fst (Earliest.draw_cylinder_guides view.initial
                (Earliest.Engine (Earliest.Crankshaft 50 0)
                   (Earliest.Cylinder (Vec2 0 0) (Vec2 0 10)) 70)
                (button_down_at (raylib.MkVector2 400 300)))))
   = view.inverse_transform_Vector2 view.initial
       (GetMousePosition (button_down_at (raylib.MkVector2 400 300)))
   /\ Earliest.direction
        (Earliest.cylinder_
           (fst (Earliest.draw_cylinder_guides view.initial
                   (Earliest.Engine (Earliest.Crankshaft 50 0)
                      (Earliest.Cylinder (Vec2 0 0) (Vec2 0 10)) 70)
                   (button_down_at (raylib.MkVector2 400 300)))))
      = glm.sub
          (view.inverse_transform_Vector2 view.initial
             (GetMousePosition (button_down_at (raylib.MkVector2 400 300))))
          (view.inverse_transform_Vector2 view.initial
             (GetMousePosition (button_down_at (raylib.MkVector2 400 300)))))
  /\ (interface.active_component
        (fst (fst (PistonApp.draw_cylinder_guides interface.initial view.initial
                     (engine_with 50 70 (Vec2 0 0) (Vec2 0 10) 0)
                     (button_down_at (raylib.MkVector2 400 300)))))
      = interface.CYLINDER_GUIDE_POSITION
      /\ Piston.origin
           (Piston.cylinder_
              (snd (fst (PistonApp.draw_cylinder_guides interface.initial view.initial
                           (engine_with 50 70 (Vec2 0 0) (Vec2 0 10) 0)
                           (button_down_at (raylib.MkVector2 400 300))))))
         = view.inverse_transform_Vector2 view.initial
             (GetMousePosition (button_down_at (raylib.MkVector2 400 300)))
      /\ Piston.direction
           (Piston.cylinder_
              (snd (fst (PistonApp.draw_cylinder_guides interface.initial view.initial
                           (engine_with 50 70 (Vec2 0 0) (Vec2 0 10) 0)
                           (button_down_at (raylib.MkVector2 400 300))))))
         = Piston.direction
             (Piston.cylinder_ (engine_with 50 70 (Vec2 0 0) (Vec2 0 10) 0))).
Proof.
  apply (press_on_overlapping_handles view.initial
           (Earliest.Engine (Earliest.Crankshaft 50 0)
              (Earliest.Cylinder (Vec2 0 0) (Vec2 0 10)) 70)
           (engine_with 50 70 (Vec2 0 0) (Vec2 0 10) 0)
           interface.initial (button_down_at (raylib.MkVector2 400 300))).
  - reflexivity.
  - cbn [GetMousePosition button_down_at Earliest.origin Earliest.cylinder_].
    rewrite initial_camera_inverse. apply ltb_true_iff.
    unfold glm.length, glm.dot, glm.sub.
    cbn [glm.x glm.y raylib.x raylib.y].
    replace ((400 - 400 - 0) * (400 - 400 - 0) + (300 - 300 - 0) * (300 - 300 - 0))
      with 0 by ring.
    rewrite sqrt_0. lra.
  - cbn [GetMousePosition button_down_at Earliest.direction Earliest.cylinder_].
    rewrite initial_camera_inverse. apply ltb_true_iff.
    unfold glm.length, glm.dot, glm.sub, glm.add.
    cbn [glm.x glm.y raylib.x raylib.y].
    replace ((400 - 400 - (400 - 400 + 0)) * (400 - 400 - (400 - 400 + 0))
             + (300 - 300 - (300 - 300 + 10)) * (300 - 300 - (300 - 300 + 10)))
      with (10 * 10) by ring.
    rewrite sqrt_square; lra.
  - reflexivity.
  - reflexivity.
  - reflexivity.
Defined.

(** ** The stored positions *)

(** X20.  What the stateful revision has stored as crankpin and as piston
    never reaches the display: two states with the same parameters,
    interface and camera make the same calls in every frame of a run,
    whatever crankpin and piston they hold, and stay alike in those three. *)
Theorem stored_positions_are_never_drawn
    (inps : list input) (st st' : StatefulApp.state) :
  project st = project st' ->
  snd (StatefulApp.run inps st) = snd (StatefulApp.run inps st')
  /\ project (fst (StatefulApp.run inps st))
     = project (fst (StatefulApp.run inps st')).
Proof.
  revert st st'. induction inps as [ | inp rest IH ]; intros st st' Hproj.
  - split; [ reflexivity | exact Hproj ].
  - cbn [StatefulApp.run].
    destruct (frames_agree inp st) as [Hst Hcalls].
    destruct (frames_agree inp st') as [Hst' Hcalls'].
    rewrite Hproj in Hst, Hcalls.
    destruct (StatefulApp.frame inp st) as [st1 calls1].
    destruct (StatefulApp.frame inp st') as [st1' calls1'].
    cbn [fst snd] in *.
    assert (Hproj1 : project st1 = project st1') by congruence.
    destruct (IH st1 st1' Hproj1) as [IHcalls IHst].
    destruct (StatefulApp.run rest st1) as [st2 calls2].
    destruct (StatefulApp.run rest st1') as [st2' calls2'].
    cbn [fst snd] in *. split; [ congruence | exact IHst ].
Qed.

Lemma stored_positions_are_never_drawn_witness :
  snd (StatefulApp.run [button_down_at (raylib.MkVector2 410 300)]
         (with_stored StatefulApp.initial (Vec2 7 7)
            (Stateful.Piston (Vec2 0 80) true)))
  = snd (StatefulApp.run [button_down_at (raylib.MkVector2 410 300)]
           StatefulApp.initial)
  /\ project
       (fst (StatefulApp.run [button_down_at (raylib.MkVector2 410 300)]
               (with_stored StatefulApp.initial (Vec2 7 7)
                  (Stateful.Piston (Vec2 0 80) true))))
     = project
         (fst (StatefulApp.run [button_down_at (raylib.MkVector2 410 300)]
                 StatefulApp.initial)).
Proof.
  apply (stored_positions_are_never_drawn
           [button_down_at (raylib.MkVector2 410 300)]
           (with_stored StatefulApp.initial (Vec2 7 7)
              (Stateful.Piston (Vec2 0 80) true))
           StatefulApp.initial).
  reflexivity.
Defined.

(** ** The zero direction in binary32 *)

(** X21.  The zero direction is not rejected.  For every crank radius, rod
    length, origin and angle, [calculate] on the direction [(0,0)], with
    zeros of either sign, returns a valid result whose position is
    [(NaN, NaN)]: [normalize] divides by [sqrt 0], the coefficients are
    NaN, and NaN passes both the test on [divisor] and the test on the
    discriminant.  [calculate_positions] of the stateful revision likewise
    sets [piston.exists] and stores [(NaN, NaN)]. *)
Theorem zero_direction_is_valid_nan
    (m : F32.libm) (r L : F32.float) (O : F32.vec2) (alpha : F32.float)
    (s1 s2 : bool) (pin pos : F32.vec2) (ex : bool) :
  F32.Piston.calculate m
    (F32.Piston.engine_with r L O (F32.Vec2 (S754_zero s1) (S754_zero s2)) alpha)
  = F32.Piston.valid (F32.Vec2 S754_nan S754_nan)
  /\ F32.Stateful.piston_
       (F32.Stateful.calculate_positions m
          (F32.Stateful.Engine (F32.Stateful.Crankshaft r pin alpha)
             (F32.Stateful.Cylinder O (F32.Vec2 (S754_zero s1) (S754_zero s2)))
             (F32.Stateful.Piston pos ex) L))
     = F32.Stateful.Piston (F32.Vec2 S754_nan S754_nan) true.
Proof.
  split.
  - unfold F32.Piston.calculate.
    cbn [F32.Piston.engine_with F32.Piston.cylinder_ F32.Piston.direction
         F32.Piston.origin F32.Piston.crank F32.Piston.crank_radius
         F32.Piston.angle F32.Piston.connecting_rod_length].
    rewrite normalize_zero_is_nan. cbn [F32.x F32.y].
    unfold F32.square. rewrite !mul_nan_r.
    change (F32.is_zero S754_nan) with false. cbn iota.
    rewrite !sub_nan_l. change (F32.ltb S754_nan (F32.of_int 0)) with false.
    cbn iota. unfold F32.vadd, F32.vscale. cbn [F32.x F32.y].
    rewrite !mul_nan_l, !add_nan_r. reflexivity.
  - rewrite f32_calculate_positions_unfold.
    unfold F32.Piston.divisor, F32.Piston.a, F32.Stateful.b, F32.Stateful.c.
    cbn [F32.Stateful.snapshot F32.Piston.cylinder_ F32.Piston.direction
         F32.Stateful.crankshaft_ F32.Stateful.cylinder_ F32.Stateful.piston_
         F32.Stateful.connecting_rod_length F32.Stateful.crank_radius
         F32.Stateful.angle F32.Stateful.origin F32.Stateful.direction
         F32.Stateful.position].
    rewrite normalize_zero_is_nan. cbn [F32.x F32.y].
    unfold F32.square. rewrite !mul_nan_r.
    change (F32.is_zero S754_nan) with false. cbn iota.
    rewrite !sub_nan_l. change (F32.ltb S754_nan (F32.of_int 0)) with false.
    cbn iota. unfold F32.vadd, F32.vscale. cbn [F32.x F32.y].
    rewrite !mul_nan_l, !add_nan_r. reflexivity.
Qed.

(** ** A direction too long for binary32 *)

(** X22.  A finite direction whose squared length overflows is rejected
    as if it were degenerate: [dot(D, D)] is an infinity, [inversesqrt]
    of it is [0], the normalised direction is the zero vector, [a] and
    [divisor] are [0] and [is_zero(divisor)] fires.  So for every crank
    radius, rod length, origin and angle the result is invalid, whatever
    the geometry is. *)
Theorem overflowing_direction_is_rejected
    (m : F32.libm) (r L : F32.float) (O D : F32.vec2) (alpha : F32.float) :
  F32.is_finite (F32.x D) = true ->
  F32.is_finite (F32.y D) = true ->
  F32.dot D D = S754_infinity false ->
  (exists s1 s2, F32.normalize D = F32.Vec2 (S754_zero s1) (S754_zero s2))
  /\ F32.Piston.calculate m (F32.Piston.engine_with r L O D alpha)
     = F32.Piston.invalid.
Proof.
  intros Hx Hy Hdot.
  assert (Hn : exists s1 s2,
             F32.normalize D = F32.Vec2 (S754_zero s1) (S754_zero s2)).
  { unfold F32.normalize, F32.inversesqrt. rewrite Hdot.
    change (F32.div (F32.of_int 1) (F32.sqrt (S754_infinity false)))
      with (S754_zero false).
    destruct D as [dx dy]. cbn [F32.x F32.y] in *. unfold F32.vscale.
    cbn [F32.x F32.y].
    destruct dx as [sx | sx | | sx mx ex]; try discriminate;
      destruct dy as [sy | sy | | sy my ey]; try discriminate;
      eexists; eexists; reflexivity. }
  split; [ exact Hn | ].
  destruct Hn as (s1 & s2 & Hn).
  rewrite f32_calculate_unfold.
  unfold F32.Piston.divisor, F32.Piston.a.
  cbn [F32.Piston.engine_with F32.Piston.cylinder_ F32.Piston.direction].
  rewrite Hn. cbn [F32.x F32.y].
  destruct s1, s2; reflexivity.
Qed.

Lemma overflowing_direction_is_rejected_witness :
  (exists s1 s2,
      F32.normalize (F32.Vec2 (F32.of_int 0) (F32.make 13234890 76))
      = F32.Vec2 (S754_zero s1) (S754_zero s2))
  /\ F32.Piston.calculate F32.libm_table
       (F32.Piston.engine_with (F32.of_int 3) (F32.of_int 5)
          (F32.Vec2 (F32.of_int 0) (F32.of_int 0))
          (F32.Vec2 (F32.of_int 0) (F32.make 13234890 76)) (F32.of_int 0))
     = F32.Piston.invalid.
Proof.
  apply (overflowing_direction_is_rejected F32.libm_table
           (F32.of_int 3) (F32.of_int 5)
           (F32.Vec2 (F32.of_int 0) (F32.of_int 0))
           (F32.Vec2 (F32.of_int 0) (F32.make 13234890 76)) (F32.of_int 0)).
  - reflexivity.
  - reflexivity.
  - vm_compute. reflexivity.
Defined.
